(** * nbcelltests.lint: the notebook lint rules and their orchestrator

    A shallow embedding of [nbcelltests/lint.py].  Python values are kept
    dynamically typed (the orchestrator reads them out of one heterogeneous
    dict), partial operations return a result-or-exception, and the
    orchestrator [run] threads an explicit world (list objects, files,
    spawned commands) because it mutates its argument and the file system. *)

From stdpp Require Import gmap strings list fin_maps fin_sets pretty sorting.
From Stdlib Require Import ZArith Lia.
From Stdlib Require Ascii String.

Local Open Scope Z_scope.

(** ** Python values *)

(** Hashable atoms: what the sets hold and what kernelspec dicts map to
    (lint.py, line 68: "assumes kernelspec dict values are hashable
    (they're strings)"). *)
Inductive scalar :=
  | SInt (n : Z)
  | SStr (s : string).

#[global] Instance scalar_eq_dec : EqDecision scalar.
Proof. solve_decision. Defined.

#[global] Instance scalar_countable : Countable scalar.
Proof.
  refine (inj_countable'
    (λ x, match x with SInt n => inl n | SStr s => inr s end)
    (λ y, match y with inl n => SInt n | inr s => SStr s end) _).
  by intros [].
Defined.

(** The values found in the metadata dict and in the rule configuration:
    [None], booleans, ints, strings, flat lists, sets and flat dicts.
    Floats and nested containers are outside this universe. *)
Inductive val :=
  | VNone
  | VBool (b : bool)
  | VInt (n : Z)
  | VStr (s : string)
  | VList (l : list scalar)
  | VSet (s : gset scalar)
  | VDict (d : gmap string scalar).

#[global] Instance val_eq_dec : EqDecision val.
Proof. solve_decision. Defined.

Definition of_scalar (x : scalar) : val :=
  match x with SInt n => VInt n | SStr s => VStr s end.

(** A Python [str] is a sequence of code points. *)
Definition pystr := list N.

Definition lit (s : string) : pystr :=
  Ascii.N_of_ascii <$> String.list_ascii_of_string s.

#[global] Arguments lit : simpl never.

Definition NL : pystr := [10%N].
Definition TAB : pystr := [9%N].

(** [str(v)], as [str.format] substitutes it.  It is left abstract.  Python
    prints a set in the order of its hash table, which depends on how the
    set was built and not on its elements alone; here a set is its
    elements, so a rendered set stands for the text of one set within one
    call, and texts are not compared across calls that build their sets
    differently. *)
Class Str := str_of : val → pystr.

(** ** Exceptions *)

Inductive exn :=
  | KeyError (k : string)
  | TypeError
  | AttributeError
  | ValueError (msg : pystr)
  | OSError.

Inductive res (A : Type) :=
  | Ok (a : A)
  | Raise (e : exn).
Arguments Ok {A} a.
Arguments Raise {A} e.

#[global] Instance res_ret : MRet res := λ A a, Ok a.
#[global] Instance res_fmap : FMap res := λ A B f r,
  match r with Ok a => Ok (f a) | Raise e => Raise e end.
#[global] Instance res_bind : MBind res := λ A B k r,
  match r with Ok a => k a | Raise e => Raise e end.

Definition returns {A} (r : res A) : Prop := ∃ a, r = Ok a.
Definition raises {A} (r : res A) : Prop := ∃ e, r = Raise e.

(** ** The Python operations the module uses *)

(** [int] and [bool] compare as numbers ([True] is 1). *)
Definition as_num (v : val) : option Z :=
  match v with
  | VInt n => Some n
  | VBool b => Some (if b then 1 else 0)
  | _ => None
  end.

(** [a < b] and [a <= b].  Every comparison of the module that is reached
    has a number on its right, and Python then raises [TypeError] unless the
    left operand is a number as well. *)
Definition py_lt (a b : val) : res bool :=
  match as_num a, as_num b with
  | Some x, Some y => Ok (x <? y)
  | _, _ => Raise TypeError
  end.

Definition py_le (a b : val) : res bool :=
  match as_num a, as_num b with
  | Some x, Some y => Ok (x <=? y)
  | _, _ => Raise TypeError
  end.

Definition chars (s : string) : list scalar :=
  (λ c, SStr (String c EmptyString)) <$> String.list_ascii_of_string s.

(** Iterating a value: a list in order, a string by characters, a dict by
    keys, a set in some order; the others are not iterable. *)
Definition py_iter (v : val) : res (list scalar) :=
  match v with
  | VList l => Ok l
  | VSet s => Ok (elements s)
  | VStr s => Ok (chars s)
  | VDict d => Ok (SStr <$> elements (dom d))
  | VNone | VBool _ | VInt _ => Raise TypeError
  end.

(** [set(v)] *)
Definition py_set (v : val) : res (gset scalar) :=
  l ← py_iter v; Ok (list_to_set l).

(** [d[k]] *)
Definition getitem (d : gmap string val) (k : string) : res val :=
  match d !! k with
  | Some v => Ok v
  | None => Raise (KeyError k)
  end.

(** [d.get(k, None)] *)
Definition get_or_none (d : gmap string val) (k : string) : val :=
  default VNone (d !! k).

(** [v.items()]: only a dict has the attribute. *)
Definition items (v : val) : res (list (string * scalar)) :=
  match v with
  | VDict d => Ok (map_to_list d)
  | _ => Raise AttributeError
  end.

(** [x & d.keys()]: the set's own [__and__] declines a keys view, and the
    view's reflected operator iterates [x] and keeps the keys of [d]. *)
Definition py_and_keys (x : val) (d : gmap string val) : res (gset string) :=
  s ← py_set x; Ok (filter (λ k, SStr k ∈ s) (dom d)).

(** ** Messages *)

(** Modelled from the spec: the enumeration [LintType] of
    [nbcelltests/define.py], which is not part of the sources at hand
    (spec, section 3). *)
Inductive LintType :=
  | LINES_PER_CELL
  | CELLS_PER_NOTEBOOK
  | FUNCTION_DEFINITIONS
  | CLASS_DEFINITIONS
  | KERNELSPEC
  | MAGICS
  | LINTER.

#[global] Instance LintType_eq_dec : EqDecision LintType.
Proof. solve_decision. Defined.

(** Modelled from the spec: the record [LintMessage] of
    [nbcelltests/define.py], built positionally as
    [LintMessage(cell, message, type, passed)] (spec, section 3). *)
Record LintMessage := mkLintMessage {
  lm_cell : Z;
  lm_message : pystr;
  lm_type : LintType;
  lm_passed : bool }.

#[global] Instance LintMessage_eq_dec : EqDecision LintMessage.
Proof. solve_decision. Defined.

(** What every rule function returns: the messages and the overall flag. *)
Definition verdict : Type := list LintMessage * bool.

(** ** The rule functions *)

Section Rules.
Context `{Str}.

(** The loop body of [lint_lines_per_cell]: one message for the cell at
    position [i]. *)
Definition lines_message (max_lines_per_cell : val) (i : nat)
    (lines_in_cell : scalar) : res LintMessage :=
  ok ← py_le (of_scalar lines_in_cell) max_lines_per_cell;
  Ok (mkLintMessage
        (Z.of_nat i + 1)
        (lit "Checking lines in cell (max=" ++ str_of max_lines_per_cell
           ++ lit "; actual=" ++ str_of (of_scalar lines_in_cell) ++ lit ")")
        LINES_PER_CELL
        ok).

(** [for i, x in enumerate(l)], starting the count at [i]. *)
Fixpoint enumerate_from (max_lines_per_cell : val) (i : nat)
    (l : list scalar) : res (list LintMessage) :=
  match l with
  | [] => Ok []
  | x :: l' =>
      m ← lines_message max_lines_per_cell i x;
      ms ← enumerate_from max_lines_per_cell (S i) l';
      Ok (m :: ms)
  end.

Definition lint_lines_per_cell (cell_lines max_lines_per_cell : val)
    : res verdict :=
  neg ← py_lt max_lines_per_cell (VInt 0);
  if neg : bool then Ok ([], true) else
  l ← py_iter cell_lines;
  ret ← enumerate_from max_lines_per_cell 0 l;
  Ok (ret, forallb lm_passed ret).

Definition lint_cells_per_notebook (cell_count max_cells_per_notebook : val)
    : res verdict :=
  neg ← py_lt max_cells_per_notebook (VInt 0);
  if neg : bool then Ok ([], true) else
  passed ← py_le cell_count max_cells_per_notebook;
  Ok ([mkLintMessage (-1)
         (lit "Checking cells per notebook (max="
            ++ str_of max_cells_per_notebook
            ++ lit "; actual=" ++ str_of cell_count ++ lit ")")
         CELLS_PER_NOTEBOOK passed], passed).

Definition lint_function_definitions (functions max_function_definitions : val)
    : res verdict :=
  neg ← py_lt max_function_definitions (VInt 0);
  if neg : bool then Ok ([], true) else
  passed ← py_le functions max_function_definitions;
  Ok ([mkLintMessage (-1)
         (lit "Checking functions per notebook (max="
            ++ str_of max_function_definitions
            ++ lit "; actual=" ++ str_of functions ++ lit ")")
         FUNCTION_DEFINITIONS passed], passed).

Definition lint_class_definitions (classes max_class_definitions : val)
    : res verdict :=
  neg ← py_lt max_class_definitions (VInt 0);
  if neg : bool then Ok ([], true) else
  passed ← py_le classes max_class_definitions;
  Ok ([mkLintMessage (-1)
         (lit "Checking classes per notebook (max="
            ++ str_of max_class_definitions
            ++ lit "; actual=" ++ str_of classes ++ lit ")")
         CLASS_DEFINITIONS passed], passed).

(** [set(a).issuperset(b)] on two lists of key/value pairs. *)
Definition issuperset (a b : list (string * scalar)) : bool :=
  forallb (λ kv, bool_decide (kv ∈ a)) b.

(** The only sentinel the body tests is [False] (line 66); any other
    requirement, [None] included, goes on to [.items()] (line 69). *)
Definition lint_kernelspec (kernelspec kernelspec_requirements : val)
    : res verdict :=
  if decide (kernelspec_requirements = VBool false) then Ok ([], true) else
  have ← items kernelspec;
  want ← items kernelspec_requirements;
  let passed := issuperset have want in
  Ok ([mkLintMessage (-1)
         (lit "Checking kernelspec (min. required="
            ++ str_of kernelspec_requirements
            ++ lit "; actual=" ++ str_of kernelspec ++ lit ")")
         KERNELSPEC passed], passed).

(** Line 93: the message for the failing set [bad], which the text embeds
    only when it is not empty. *)
Definition magics_message (msg : string) (bad : gset scalar) : LintMessage :=
  mkLintMessage (-1)
    (lit "Checking magics"
       ++ (if decide (bad = ∅) then []
           else lit " (" ++ lit msg ++ lit " " ++ str_of (VSet bad) ++ lit ")"))
    MAGICS
    (bool_decide (bad = ∅)).

(** Past the two tests of lines 79 and 82 exactly one list is not [None],
    so the [elif] of line 88 is the remaining case. *)
Definition lint_magics (magics whitelist blacklist : val) : res verdict :=
  if decide (whitelist = VNone ∧ blacklist = VNone) then Ok ([], true) else
  if decide (whitelist ≠ VNone ∧ blacklist ≠ VNone) then
    Raise (ValueError
      (lit "Must specify either a whitelist or a blacklist, not both. Blacklist: "
         ++ str_of blacklist ++ lit "; whitelist: " ++ str_of whitelist))
  else if decide (whitelist ≠ VNone) then
    have ← py_set magics;
    allowed ← py_set whitelist;
    let bad := have ∖ allowed in
    Ok ([magics_message "missing from whitelist:" bad], bool_decide (bad = ∅))
  else
    have ← py_set magics;
    banned ← py_set blacklist;
    let bad := have ∩ banned in
    Ok ([magics_message "present in blacklist:" bad], bool_decide (bad = ∅)).

End Rules.

(** ** The orchestrator *)

(** [str.isspace] on one code point: the white space of the Unicode
    database, which is what [str.strip()] removes. *)
Definition isspace (c : N) : bool :=
  ((9 <=? c) && (c <=? 13) || (28 <=? c) && (c <=? 32)
   || (c =? 133) || (c =? 160) || (c =? 5760)
   || (8192 <=? c) && (c <=? 8202)
   || (c =? 8232) || (c =? 8233) || (c =? 8239) || (c =? 8287)
   || (c =? 12288))%N.

Fixpoint lstrip (s : pystr) : pystr :=
  match s with
  | c :: s' => if isspace c then lstrip s' else s
  | [] => []
  end.

Definition rstrip (s : pystr) : pystr := reverse (lstrip (reverse s)).

(** [s.strip()] *)
Definition strip (s : pystr) : pystr := rstrip (lstrip s).

(** What [subprocess.run] hands back. *)
Record CompletedProcess := mkCompletedProcess {
  returncode : Z;
  stdout : pystr;
  stderr : pystr }.

(** List objects live in a store and are passed by reference, so that a
    caller and [run] can hold the same list. *)
Definition loc := positive.

Record world := mkWorld {
  lists : gmap loc (list string);
  files : gmap string pystr;
  tmp_count : nat;
  spawned : list (list string) }.

(** Computations that read and write the world and may raise. *)
Definition M (A : Type) : Type := world → res A * world.

#[global] Instance M_ret : MRet M := λ A a w, (Ok a, w).
#[global] Instance M_bind : MBind M := λ A B k m w,
  match m w with
  | (Ok a, w') => k a w'
  | (Raise e, w') => (Raise e, w')
  end.

Definition lift {A} (r : res A) : M A := λ w, (r, w).

(** [try: body finally: cleanup] *)
Definition try_finally {A} (body : M A) (cleanup : M unit) : M A := λ w,
  let '(r, w1) := body w in
  match cleanup w1 with
  | (Ok _, w2) => (r, w2)
  | (Raise e, w2) => (Raise e, w2)
  end.

(** The content of a list object; [None] (not a list) reads as empty. *)
Definition deref (x : option loc) : M (list string) := λ w,
  (Ok (default [] (x ≫= λ l, lists w !! l)), w).

(** [x.append(a)] *)
Definition list_append (x : loc) (a : string) : M unit := λ w,
  match lists w !! x with
  | Some l =>
      (Ok (), mkWorld (<[x := l ++ [a]]> (lists w)) (files w)
                (tmp_count w) (spawned w))
  | None => (Raise AttributeError, w)
  end.

Definition tmp_name (n : nat) : string := "/tmp/tmp" +:+ pretty n +:+ ".py".

(** [NamedTemporaryFile(mode='w', suffix='.py', delete=False)]: a new empty
    file under a name not handed out before. *)
Definition NamedTemporaryFile : M string := λ w,
  let name := tmp_name (tmp_count w) in
  (Ok name, mkWorld (lists w) (<[name := []]> (files w))
              (S (tmp_count w)) (spawned w)).

(** [tf.write(body); tf.close()] *)
Definition write_close (name : string) (body : pystr) : M unit := λ w,
  (Ok (), mkWorld (lists w) (<[name := body]> (files w))
            (tmp_count w) (spawned w)).

(** [os.remove(name)] *)
Definition os_remove (name : string) : M unit := λ w,
  match files w !! name with
  | Some _ =>
      (Ok (), mkWorld (lists w) (delete name (files w))
                (tmp_count w) (spawned w))
  | None => (Raise OSError, w)
  end.

Definition has_key (d : gmap string val) (k : string) : bool :=
  bool_decide (is_Some (d !! k)).

(** [ret.extend(lintret); passed = passed and lintfail] *)
Definition extend (acc : verdict) (r : res verdict) : res verdict :=
  '(lintret, lintfail) ← r; Ok (acc.1 ++ lintret, acc.2 && lintfail).

(** The keys of the rule configuration, and the kind of message each one
    switches on. *)
Definition rule_keys : list string :=
  ["lines_per_cell"; "cells_per_notebook"; "function_definitions";
   "class_definitions"; "kernelspec_requirements";
   "magics_whitelist"; "magics_blacklist"].

Definition rule_type (k : string) : option LintType :=
  if decide (k = "lines_per_cell") then Some LINES_PER_CELL
  else if decide (k = "cells_per_notebook") then Some CELLS_PER_NOTEBOOK
  else if decide (k = "function_definitions") then Some FUNCTION_DEFINITIONS
  else if decide (k = "class_definitions") then Some CLASS_DEFINITIONS
  else if decide (k = "kernelspec_requirements") then Some KERNELSPEC
  else if decide (k = "magics_whitelist") then Some MAGICS
  else if decide (k = "magics_blacklist") then Some MAGICS
  else None.

Section Run.
Context `{Str}.

(** The collaborators of [run], none of them part of this module: the
    notebook reader [nbformat.read], [extract_extrametadata] of
    [.shared], the script exporter of nbconvert, the platform, and the
    external program behind [subprocess.run] (which sees its arguments,
    whether [PYTHONIOENCODING=utf8] was put in its environment, and the
    files). *)
Context {source notebook regex : Type}.
Variable nbformat_read : source → res notebook.
Variable extract_extrametadata : notebook → option regex → gmap string val.
Variable from_notebook_node : notebook → pystr.
Variable win32 : bool.
Variable subprocess_run :
  bool → list string → gmap string pystr → res CompletedProcess.

Definition _run_and_capture_utf8 (args : loc) : M CompletedProcess := λ w,
  let argv := default [] (lists w !! args) in
  (subprocess_run win32 argv (files w),
   mkWorld (lists w) (files w) (tmp_count w) (spawned w ++ [argv])).

(** Lines 112 to 140: the six rule checks, in order, on the merged and
    filtered metadata. *)
Definition run_rules (extra_metadata : gmap string val) : res verdict :=
  let acc : verdict := ([], true) in
  acc ←
    (if has_key extra_metadata "lines_per_cell" then
       cell_lines ← getitem extra_metadata "cell_lines";
       max_ ← getitem extra_metadata "lines_per_cell";
       extend acc (lint_lines_per_cell cell_lines max_)
     else Ok acc);
  acc ←
    (if has_key extra_metadata "cells_per_notebook" then
       cell_count ← getitem extra_metadata "cell_count";
       max_ ← getitem extra_metadata "cells_per_notebook";
       extend acc (lint_cells_per_notebook cell_count max_)
     else Ok acc);
  acc ←
    (if has_key extra_metadata "function_definitions" then
       functions ← getitem extra_metadata "functions";
       max_ ← getitem extra_metadata "function_definitions";
       extend acc (lint_function_definitions functions max_)
     else Ok acc);
  acc ←
    (if has_key extra_metadata "class_definitions" then
       classes ← getitem extra_metadata "classes";
       max_ ← getitem extra_metadata "class_definitions";
       extend acc (lint_class_definitions classes max_)
     else Ok acc);
  acc ←
    (if has_key extra_metadata "kernelspec_requirements" then
       kernelspec ← getitem extra_metadata "kernelspec";
       req ← getitem extra_metadata "kernelspec_requirements";
       extend acc (lint_kernelspec kernelspec req)
     else Ok acc);
  (if has_key extra_metadata "magics_whitelist"
      || has_key extra_metadata "magics_blacklist" then
     magics ← getitem extra_metadata "magics";
     extend acc (lint_magics magics
                   (get_or_none extra_metadata "magics_whitelist")
                   (get_or_none extra_metadata "magics_blacklist"))
   else Ok acc).

(** Lines 102 to 108: merge the caller's rules over the extracted
    metadata, then drop every key that the [noqa] entry names. *)
Definition merge_rules (extra_metadata : gmap string val)
    (rules : option (gmap string val)) : gmap string val :=
  default ∅ rules ∪ extra_metadata.

Definition drop_noqa (extra_metadata : gmap string val)
    : res (gmap string val) :=
  noqa ← getitem extra_metadata "noqa";
  rules_to_remove ← py_and_keys noqa extra_metadata;
  Ok (set_fold delete extra_metadata rules_to_remove).

(** Lines 143 to 155: export, write the temporary file, append its name
    to [executable], run the linter and build the LINTER message. *)
Definition lint_script (nb : notebook) (executable : loc) : M LintMessage :=
  let body := from_notebook_node nb in
  tf_name ← NamedTemporaryFile;
  try_finally
    (write_close tf_name body;;
     list_append executable tf_name;;
     ret2 ← _run_and_capture_utf8 executable;
     let msg := stdout ret2 ++ TAB ++ stderr ret2 in
     mret (mkLintMessage (-1)
             (lit "Checking lint:" ++ NL ++ strip msg)
             LINTER
             (if decide (strip msg = []) then true else false)))
    (os_remove tf_name).

Definition run (notebook_ : source) (executable : option loc)
    (rules : option (gmap string val)) (noqa_regex : option regex)
    : M verdict :=
  nb ← lift (nbformat_read notebook_);
  let extra_metadata := extract_extrametadata nb noqa_regex in
  let extra_metadata := merge_rules extra_metadata rules in
  extra_metadata ← lift (drop_noqa extra_metadata);
  '(ret, passed) ← lift (run_rules extra_metadata);
  argv ← deref executable;
  match executable, argv with
  | Some exe, _ :: _ =>
      m ← lint_script nb exe;
      mret (ret ++ [m], passed)
  | _, _ => mret (ret, passed)
  end.

(** Lines 97 to 140 taken together: what [run] computes before it looks at
    [executable].  This part reads no list object and touches no file. *)
Definition rule_part (notebook_ : source) (rules : option (gmap string val))
    (noqa_regex : option regex) : res (notebook * verdict) :=
  nb ← nbformat_read notebook_;
  meta ← drop_noqa (merge_rules (extract_extrametadata nb noqa_regex) rules);
  v ← run_rules meta;
  Ok (nb, v).

End Run.

(** The message line 153 builds from a finished process. *)
Definition linter_message (cp : CompletedProcess) : LintMessage :=
  let msg := stdout cp ++ TAB ++ stderr cp in
  mkLintMessage (-1) (lit "Checking lint:" ++ NL ++ strip msg) LINTER
    (if decide (strip msg = []) then true else false).

(** The world after lines 143 to 155 ran with the list object [exe] holding
    [argv]: the list grew by the temporary name, the file is gone again,
    and the command that was spawned is on record. *)
Definition after_linter (exe : loc) (argv : list string) (w : world) : world :=
  let name := tmp_name (tmp_count w) in
  mkWorld (<[exe := argv ++ [name]]> (lists w))
          (delete name (files w))
          (S (tmp_count w))
          (spawned w ++ [argv ++ [name]]).

(** A verdict as a rule of kind [ty] returns it: the flag is the
    conjunction of the messages' flags, and the messages are of that kind. *)
Definition of_kind (ty : LintType) (v : verdict) : Prop :=
  v.2 = forallb lm_passed v.1 ∧ Forall (λ m, lm_type m = ty) v.1.

(** Some key of the configuration [meta] switches messages of kind [ty] on. *)
Definition enabled (meta : gmap string val) (ty : LintType) : Prop :=
  ∃ k, rule_type k = Some ty ∧ is_Some (meta !! k).

Definition from_rules (meta : gmap string val) (v : verdict) : Prop :=
  v.2 = forallb lm_passed v.1 ∧ Forall (λ m, enabled meta (lm_type m)) v.1.

(** ** A concrete rendering, to run the model on examples *)

Definition str_scalar (x : scalar) : pystr :=
  match x with
  | SInt n => lit (pretty n)
  | SStr s => lit "'" ++ lit s ++ lit "'"
  end.

Fixpoint commas (l : list pystr) : pystr :=
  match l with
  | [] => []
  | [x] => x
  | x :: l' => x ++ lit ", " ++ commas l'
  end.

Definition str_item (kv : string * scalar) : pystr :=
  lit "'" ++ lit kv.1 ++ lit "': " ++ str_scalar kv.2.

(** [str(v)] with sets and dicts printed in the order of [elements]: one of
    the renderings Python may produce. *)
Definition str_sorted : Str := λ v,
  match v with
  | VNone => lit "None"
  | VBool b => lit (if b then "True" else "False")
  | VInt n => lit (pretty n)
  | VStr s => lit s
  | VList l => lit "[" ++ commas (str_scalar <$> l) ++ lit "]"
  | VSet s =>
      if decide (s = ∅) then lit "set()"
      else lit "{" ++ commas (str_scalar <$> elements s) ++ lit "}"
  | VDict d => lit "{" ++ commas (str_item <$> map_to_list d) ++ lit "}"
  end.

(** [a] occurs in [b] as a contiguous piece. *)
Definition embedded (a b : pystr) : Prop := ∃ p q, b = p ++ a ++ q.

(** An optional set argument: [None] when it is not supplied. *)
Definition opt_set (o : option (gset scalar)) : val :=
  match o with
  | None => VNone
  | Some s => VSet s
  end.

(** ** Concrete collaborators, to run the orchestrator on examples *)

(** A notebook stands for what the collaborators make of it: the metadata
    [extract_extrametadata] returns and the script the exporter writes. *)
Record demo_notebook := mkDemoNotebook {
  demo_meta : gmap string val;
  demo_script : pystr }.

Definition demo_read (nb : demo_notebook) : res demo_notebook := Ok nb.

Definition demo_extract (nb : demo_notebook) (_ : option unit)
    : gmap string val :=
  demo_meta nb.

(** An external program that prints [out] and [err] and exits with [code],
    whatever it is given. *)
Definition fixed_linter (code : Z) (out err : pystr)
    : bool → list string → gmap string pystr → res CompletedProcess :=
  λ _ _ _, Ok (mkCompletedProcess code out err).

Definition run_demo (sub : bool → list string → gmap string pystr
                           → res CompletedProcess) :=
  @run str_sorted demo_notebook demo_notebook unit
    demo_read demo_extract demo_script false sub.

(** A notebook of two cells, of two and five lines, with no rule of its
    own and no noqa marker. *)
Definition two_cells : demo_notebook :=
  mkDemoNotebook
    {[ "cell_lines" := VList [SInt 2; SInt 5];
       "cell_count" := VInt 2;
       "functions" := VInt 0;
       "classes" := VInt 0;
       "kernelspec" := VDict ∅;
       "magics" := VSet ∅;
       "noqa" := VSet ∅ ]}
    (lit "x = 1").

(** The same notebook with a marker that switches [lines_per_cell] off. *)
Definition two_cells_noqa : demo_notebook :=
  mkDemoNotebook
    (<[ "noqa" := VSet {[ SStr "lines_per_cell" ]} ]> (demo_meta two_cells))
    (demo_script two_cells).

(** A caller that holds one list object, the command of the entry point
    (line 180), and nothing else. *)
Definition flake8 : loc := 1%positive.

Definition caller_world : world :=
  mkWorld {[ flake8 := ["flake8"; "--ignore=W391"] ]} ∅ 0 [].

(** The two-cell notebook with a marker that names [cell_lines], the
    measured value of the rule [lines_per_cell]. *)
Definition cell_lines_noqa : demo_notebook :=
  mkDemoNotebook
    (<[ "noqa" := VSet {[ SStr "cell_lines" ]} ]> (demo_meta two_cells))
    (demo_script two_cells).

(** ** The order of the messages *)

(** The place of each kind of message in the list [run] returns: the
    order of the blocks of lines 112 to 153. *)
Definition rank (ty : LintType) : nat :=
  match ty with
  | LINES_PER_CELL => 0
  | CELLS_PER_NOTEBOOK => 1
  | FUNCTION_DEFINITIONS => 2
  | CLASS_DEFINITIONS => 3
  | KERNELSPEC => 4
  | MAGICS => 5
  | LINTER => 6
  end.

(** [b] may come after [a]: it is of a later kind, or both are per-cell
    messages and [b] is about a later cell. *)
Definition follows (a b : LintMessage) : Prop :=
  (rank (lm_type a) < rank (lm_type b))%nat
  ∨ (lm_type a = LINES_PER_CELL ∧ lm_type b = LINES_PER_CELL
     ∧ lm_cell a < lm_cell b).

(** The messages are in order and all of a kind before place [n]. *)
Definition upto (n : nat) (v : verdict) : Prop :=
  StronglySorted follows v.1
  ∧ Forall (λ m, (rank (lm_type m) < n)%nat) v.1.

(** ** The HTML front end and the script *)

Definition QUOTE : pystr := [34%N].

(** [sep.join(l)] *)
Fixpoint join (sep : pystr) (l : list pystr) : pystr :=
  match l with
  | [] => []
  | [x] => x
  | x :: l' => x ++ sep ++ join sep l'
  end.

(** A new list object, as a list display creates it: at a location that
    holds no list yet. *)
Definition new_list (l : list string) (w : world) : loc * world :=
  let x := fresh (dom (lists w)) in
  (x, mkWorld (<[x := l]> (lists w)) (files w) (tmp_count w) (spawned w)).

(** How the script of lines 175 to 186 ends: with the usage error, with an
    exception that [run] let through, or by [sys.exit] after printing. *)
Inductive script_end :=
  | Usage (msg : pystr)
  | Uncaught (e : exn)
  | Exit (printed : pystr) (code : Z).

Section Html.
Context `{Str} {source notebook regex : Type}.
Variable nbformat_read : source → res notebook.
Variable extract_extrametadata : notebook → option regex → gmap string val.
Variable from_notebook_node : notebook → pystr.
Variable win32 : bool.
Variable subprocess_run :
  bool → list string → gmap string pystr → res CompletedProcess.

(** [lint.to_html()], a method that [nbcelltests/define.py], which is not
    part of the sources at hand, gives [LintMessage]. *)
Variable to_html : LintMessage → pystr.

(** The loop of lines 169 to 171, from the empty string. *)
Definition html_paragraphs (ret_tmp : list LintMessage) : pystr :=
  foldl (λ ret lint, ret ++ lit "<p>" ++ to_html lint ++ lit "</p>")
    [] ret_tmp.

Definition runWithHTMLReturn (notebook_ : source) (executable : option loc)
    (rules : option (gmap string val)) : M (pystr * bool) :=
  '(ret_tmp, fail) ← run nbformat_read extract_extrametadata
                       from_notebook_node win32 subprocess_run
                       notebook_ executable rules None;
  mret (lit "<div style=" ++ QUOTE
          ++ lit "display: flex; flex-direction: column;" ++ QUOTE ++ lit ">"
          ++ html_paragraphs ret_tmp ++ lit "</div>",
        fail).

End Html.

Section Script.
Context `{Str} {notebook regex : Type}.
Variable nbformat_read : string → res notebook.
Variable extract_extrametadata : notebook → option regex → gmap string val.
Variable from_notebook_node : notebook → pystr.
Variable win32 : bool.
Variable subprocess_run :
  bool → list string → gmap string pystr → res CompletedProcess.

(** [str(r)] of a message, defined in [nbcelltests/define.py], which is
    not part of the sources at hand. *)
Variable str_message : LintMessage → pystr.

(** What [print('\n'.join(str(r) for r in ret))] writes: the joined lines
    and a newline. *)
Definition printed_lines (ret : list LintMessage) : pystr :=
  join NL (str_message <$> ret) ++ NL.

(** The script of lines 175 to 186, on [sys.argv]. *)
Definition main (argv : list string) (w : world) : script_end * world :=
  match argv with
  | [_; notebook_] =>
      let '(cmd, w1) := new_list ["flake8"; "--ignore=W391"] w in
      match run nbformat_read extract_extrametadata from_notebook_node win32
              subprocess_run notebook_ (Some cmd) None None w1 with
      | (Ok (ret, passed), w2) =>
          (Exit (printed_lines ret) (if passed then 0 else 1), w2)
      | (Raise e, w2) => (Uncaught e, w2)
      end
  | _ => (Usage (lit "Usage:python -m nbcelltests.lint <ipynb file>"), w)
  end.

End Script.

(** One of the first five blocks of lines 112 to 135, seen from outside:
    [v] is what the block contributes on the configuration [meta].  Either
    the rule's key is absent and the block is skipped, which counts as no
    message and a pass, or [v] is what the rule function [rule] returns on
    the measured value under [data] and the setting under [key]. *)
Definition checked (meta : gmap string val) (key data : string)
    (rule : val → val → res verdict) (v : verdict) : Prop :=
  (meta !! key = None ∧ v = ([], true))
  ∨ (∃ x setting, meta !! data = Some x ∧ meta !! key = Some setting
                  ∧ rule x setting = Ok v).

(** The same for the magics block of lines 137 to 140, which either of two
    keys switches on. *)
Definition checked_magics `{Str} (meta : gmap string val) (v : verdict) : Prop :=
  (meta !! "magics_whitelist" = None ∧ meta !! "magics_blacklist" = None
   ∧ v = ([], true))
  ∨ (∃ magics,
       (is_Some (meta !! "magics_whitelist")
        ∨ is_Some (meta !! "magics_blacklist"))
       ∧ meta !! "magics" = Some magics
       ∧ lint_magics magics (get_or_none meta "magics_whitelist")
           (get_or_none meta "magics_blacklist") = Ok v).

(** * Properties of the rule functions *)

Lemma py_lt_int (t : Z) : py_lt (VInt t) (VInt 0) = Ok (t <? 0).
Proof. reflexivity. Qed.

Lemma py_set_VSet (s : gset scalar) : py_set (VSet s) = Ok s.
Proof. unfold py_set; simpl. by rewrite list_to_set_elements_L. Qed.

Lemma enumerate_from_ints `{Str} (t : Z) (l : list Z) (i : nat) :
  enumerate_from (VInt t) i (SInt <$> l) =
  Ok (imap (λ j n, mkLintMessage (Z.of_nat (i + j) + 1)
              (lit "Checking lines in cell (max=" ++ str_of (VInt t)
                 ++ lit "; actual=" ++ str_of (VInt n) ++ lit ")")
              LINES_PER_CELL (n <=? t)) l).
Proof.
  revert i. induction l as [|n l IH]; intros i; [reflexivity|].
  cbn [fmap list_fmap enumerate_from]. unfold lines_message; cbn.
  rewrite IH. cbn. f_equal. f_equal.
  - by rewrite Nat.add_0_r.
  - apply imap_ext. intros j m _. cbn. f_equal. lia.
Qed.

Lemma forallb_imap_passed `{Str} (t : Z) (l : list Z) (i : nat) :
  forallb lm_passed
    (imap (λ j n, mkLintMessage (Z.of_nat (i + j) + 1)
             (lit "Checking lines in cell (max=" ++ str_of (VInt t)
                ++ lit "; actual=" ++ str_of (VInt n) ++ lit ")")
             LINES_PER_CELL (n <=? t)) l)
  = forallb (λ n, n <=? t) l.
Proof.
  revert i. induction l as [|n l IH]; intros i; [reflexivity|].
  cbn. f_equal. rewrite <- (IH (S i)). f_equal.
  apply imap_ext. intros j m _. cbn. do 2 f_equal. lia.
Qed.

Lemma issuperset_spec (ks req : gmap string scalar) :
  issuperset (map_to_list ks) (map_to_list req) = true
  ↔ ∀ k v, req !! k = Some v → ks !! k = Some v.
Proof.
  unfold issuperset. rewrite forallb_forall. split.
  - intros Hall k v Hk.
    assert (Hin : In (k, v) (map_to_list req)).
    { apply list_elem_of_In. by apply elem_of_map_to_list. }
    apply Hall in Hin. apply bool_decide_eq_true in Hin.
    by apply elem_of_map_to_list in Hin.
  - intros Hsub [k v] Hin. apply bool_decide_eq_true.
    apply list_elem_of_In, elem_of_map_to_list in Hin.
    apply elem_of_map_to_list. auto.
Qed.

(** C1.  The docstring of [lint_kernelspec] promises that a requirement of
    [None] asks for an empty kernelspec.  The code only tests for [False]
    and then calls [.items()] on the requirement, so with [None] it raises
    [AttributeError] for every kernelspec, the empty one included: it never
    returns a message. *)
Theorem lint_kernelspec_None_raises `{Str} :
  lint_kernelspec (VDict ∅) VNone = Raise AttributeError
  ∧ ∀ ks, lint_kernelspec ks VNone = Raise AttributeError.
Proof.
  split; [reflexivity|].
  intros ks. unfold lint_kernelspec.
  destruct (decide (VNone = VBool false)) as [Heq|_]; [discriminate Heq|].
  by destruct ks.
Qed.

(** C4.  With a negative threshold each of the four counting rules returns
    no message and an overall flag of [True], whatever the measured value
    is (it is not even inspected). *)
Theorem negative_threshold_disables `{Str} (t : Z) (v : val) :
  t < 0 →
  lint_lines_per_cell v (VInt t) = Ok ([], true)
  ∧ lint_cells_per_notebook v (VInt t) = Ok ([], true)
  ∧ lint_function_definitions v (VInt t) = Ok ([], true)
  ∧ lint_class_definitions v (VInt t) = Ok ([], true).
Proof.
  intros Ht.
  unfold lint_lines_per_cell, lint_cells_per_notebook,
    lint_function_definitions, lint_class_definitions.
  rewrite py_lt_int. apply Z.ltb_lt in Ht. rewrite Ht. cbn. done.
Qed.

(** C4 at the threshold -1, on a value that is not even a count. *)
Lemma negative_threshold_disables_witness :
  -1 < 0
  ∧ @lint_lines_per_cell str_sorted (VList [SInt 7; SInt 900]) (VInt (-1))
      = Ok ([], true)
  ∧ @lint_cells_per_notebook str_sorted (VList [SInt 7; SInt 900]) (VInt (-1))
      = Ok ([], true)
  ∧ @lint_function_definitions str_sorted (VList [SInt 7; SInt 900]) (VInt (-1))
      = Ok ([], true)
  ∧ @lint_class_definitions str_sorted (VList [SInt 7; SInt 900]) (VInt (-1))
      = Ok ([], true).
Proof.
  split; [lia|].
  apply (@negative_threshold_disables str_sorted (-1) (VList [SInt 7; SInt 900])).
  lia.
Defined.

(** C5.  With a threshold [t >= 0], [lint_lines_per_cell] returns one
    message per cell; the message at position [i] carries cell index
    [i + 1] and passes exactly when that cell's count is at most [t]; the
    overall flag is the conjunction of the messages' flags, hence [True] on
    the empty sequence. *)
Theorem lines_per_cell_one_message_each `{Str} (t : Z) (cell_lines : list Z) :
  0 ≤ t →
  ∃ ret passed,
    lint_lines_per_cell (VList (SInt <$> cell_lines)) (VInt t) = Ok (ret, passed)
    ∧ length ret = length cell_lines
    ∧ (∀ (i : nat) n, cell_lines !! i = Some n →
         ∃ m, ret !! i = Some m
              ∧ lm_cell m = Z.of_nat i + 1
              ∧ lm_type m = LINES_PER_CELL
              ∧ lm_passed m = (n <=? t))
    ∧ passed = forallb lm_passed ret
    ∧ passed = forallb (λ n, n <=? t) cell_lines
    ∧ (cell_lines = [] → ret = [] ∧ passed = true).
Proof.
  intros Ht. unfold lint_lines_per_cell. rewrite py_lt_int.
  assert (Hge : (t <? 0) = false) by (apply Z.ltb_ge; lia).
  rewrite Hge. cbn [py_iter mbind res_bind]. rewrite enumerate_from_ints.
  eexists _, _. split; [reflexivity|].
  split; [by rewrite length_imap|].
  split.
  { intros i n Hi. eexists. split.
    - rewrite list_lookup_imap, Hi. reflexivity.
    - done. }
  split; [reflexivity|].
  split; [apply forallb_imap_passed|].
  intros ->. done.
Qed.

(** C5 at the threshold 3, on cells of 2, 5 and 3 lines. *)
Lemma lines_per_cell_one_message_each_witness :
  0 ≤ 3
  ∧ ∃ ret passed,
      @lint_lines_per_cell str_sorted (VList (SInt <$> [2; 5; 3])) (VInt 3)
        = Ok (ret, passed)
      ∧ length ret = length [2; 5; 3]
      ∧ (∀ (i : nat) n, [2; 5; 3] !! i = Some n →
           ∃ m, ret !! i = Some m
                ∧ lm_cell m = Z.of_nat i + 1
                ∧ lm_type m = LINES_PER_CELL
                ∧ lm_passed m = (n <=? 3))
      ∧ passed = forallb lm_passed ret
      ∧ passed = forallb (λ n, n <=? 3) [2; 5; 3]
      ∧ ([2; 5; 3] = [] → ret = [] ∧ passed = true).
Proof.
  split; [lia|].
  apply (@lines_per_cell_one_message_each str_sorted 3 [2; 5; 3]). lia.
Defined.

(** C6.  With a requirements mapping, [lint_kernelspec] returns exactly one
    message, at cell index -1, and it passes exactly when every key/value
    pair of the requirements is in the kernelspec with an equal value; the
    kernelspec may hold more keys. *)
Theorem kernelspec_superset_check `{Str} (ks req : gmap string scalar) :
  ∃ m, lint_kernelspec (VDict ks) (VDict req) = Ok ([m], lm_passed m)
       ∧ lm_cell m = -1
       ∧ lm_type m = KERNELSPEC
       ∧ (lm_passed m = true ↔ ∀ k v, req !! k = Some v → ks !! k = Some v).
Proof.
  unfold lint_kernelspec.
  destruct (decide (VDict req = VBool false)) as [Heq|_]; [discriminate Heq|].
  cbn [items mbind res_bind]. eexists (mkLintMessage _ _ _ _).
  split; [reflexivity|]. cbn [lm_cell lm_type lm_passed].
  repeat split; try apply issuperset_spec.
Qed.

Example kernelspec_extra_keys_pass :
  snd <$> @lint_kernelspec str_sorted
    (VDict {[ "a" := SInt 1; "b" := SInt 2 ]}) (VDict {[ "a" := SInt 1 ]})
  = Ok true.
Proof. vm_compute. reflexivity. Qed.

Example kernelspec_other_value_fails :
  snd <$> @lint_kernelspec str_sorted
    (VDict {[ "a" := SInt 1 ]}) (VDict {[ "a" := SInt 2 ]})
  = Ok false.
Proof. vm_compute. reflexivity. Qed.

(** X1.  [lint_kernelspec(ks, False)] is [([], True)] for any [ks]. *)
Example kernelspec_False_is_off `{Str} (ks : val) :
  lint_kernelspec ks (VBool false) = Ok ([], true).
Proof. reflexivity. Qed.

(** [lint_magics] on well-typed arguments, case by case. *)
Lemma lint_magics_cases `{Str} (magics : gset scalar)
    (whitelist blacklist : option (gset scalar)) :
  lint_magics (VSet magics) (opt_set whitelist) (opt_set blacklist) =
  match whitelist, blacklist with
  | None, None => Ok ([], true)
  | Some w, Some b =>
      Raise (ValueError
        (lit "Must specify either a whitelist or a blacklist, not both. Blacklist: "
           ++ str_of (VSet b) ++ lit "; whitelist: " ++ str_of (VSet w)))
  | Some w, None =>
      Ok ([magics_message "missing from whitelist:" (magics ∖ w)],
          bool_decide (magics ∖ w = ∅))
  | None, Some b =>
      Ok ([magics_message "present in blacklist:" (magics ∩ b)],
          bool_decide (magics ∩ b = ∅))
  end.
Proof.
  unfold lint_magics.
  destruct whitelist as [w|], blacklist as [b|]; cbn [opt_set].
  - rewrite decide_False, decide_True by intuition congruence. reflexivity.
  - rewrite !decide_False, decide_True by intuition congruence.
    rewrite !py_set_VSet. reflexivity.
  - rewrite !decide_False by intuition congruence.
    rewrite !py_set_VSet. reflexivity.
  - rewrite decide_True by intuition congruence. reflexivity.
Qed.

(** C7.  On a set of magics and optional sets as white and black list,
    [lint_magics] raises exactly when both lists are supplied, and what it
    raises is the [ValueError], never a message; with neither list it
    returns no message and [True]; in every other case it returns. *)
Theorem magics_raises_iff_both_lists `{Str}
    (magics : gset scalar) (whitelist blacklist : option (gset scalar)) :
  let r := lint_magics (VSet magics) (opt_set whitelist) (opt_set blacklist) in
  (raises r ↔ is_Some whitelist ∧ is_Some blacklist)
  ∧ (returns r ↔ whitelist = None ∨ blacklist = None)
  ∧ (is_Some whitelist ∧ is_Some blacklist → ∃ txt, r = Raise (ValueError txt))
  ∧ lint_magics (VSet magics) VNone VNone = Ok ([], true).
Proof.
  cbv zeta. rewrite lint_magics_cases. unfold raises, returns.
  destruct whitelist as [w|], blacklist as [b|];
    (split; [|split; [|split; [|reflexivity]]]).
  all: try (split; [intros [? [=]] | intros [[? [=]] [? [=]]]]).
  all: try (split; [intros [? [=]] | intros [[=]|[=]]]).
  all: try (intros [[? [=]] [? [=]]]).
  all: try (split; [intros _|intros _]; eauto using mk_is_Some).
  all: eauto.
Qed.

Lemma magics_message_embeds `{Str} (msg : string) (bad : gset scalar) :
  bad ≠ ∅ → embedded (str_of (VSet bad)) (lm_message (magics_message msg bad)).
Proof.
  intros Hbad. unfold magics_message; cbn [lm_message].
  rewrite decide_False by done.
  exists (lit "Checking magics" ++ lit " (" ++ lit msg ++ lit " "), (lit ")").
  by rewrite <- !app_assoc.
Qed.

Lemma magics_message_passed `{Str} (msg : string) (bad : gset scalar) :
  lm_passed (magics_message msg bad) = true ↔ bad = ∅.
Proof. unfold magics_message; cbn [lm_passed]. apply bool_decide_eq_true. Qed.

(** C8.  With only a whitelist, [lint_magics] returns one message, which
    passes exactly when no magic is outside the whitelist; with only a
    blacklist, one message, which passes exactly when no magic is in the
    blacklist.  In both modes the text of the message contains the
    rendering of the failing set whenever that set is not empty. *)
Theorem magics_failing_set `{Str} (magics whitelist blacklist : gset scalar) :
  (∃ m, lint_magics (VSet magics) (VSet whitelist) VNone = Ok ([m], lm_passed m)
        ∧ lm_cell m = -1
        ∧ lm_type m = MAGICS
        ∧ (lm_passed m = true ↔ magics ∖ whitelist = ∅)
        ∧ (magics ∖ whitelist ≠ ∅ →
           embedded (str_of (VSet (magics ∖ whitelist))) (lm_message m)))
  ∧ (∃ m, lint_magics (VSet magics) VNone (VSet blacklist) = Ok ([m], lm_passed m)
          ∧ lm_cell m = -1
          ∧ lm_type m = MAGICS
          ∧ (lm_passed m = true ↔ magics ∩ blacklist = ∅)
          ∧ (magics ∩ blacklist ≠ ∅ →
             embedded (str_of (VSet (magics ∩ blacklist))) (lm_message m))).
Proof.
  split.
  - rewrite (lint_magics_cases magics (Some whitelist) None).
    exists (magics_message "missing from whitelist:" (magics ∖ whitelist)).
    split; [reflexivity|].
    split; [reflexivity|]. split; [reflexivity|].
    split; [apply magics_message_passed | apply magics_message_embeds].
  - rewrite (lint_magics_cases magics None (Some blacklist)).
    exists (magics_message "present in blacklist:" (magics ∩ blacklist)).
    split; [reflexivity|].
    split; [reflexivity|]. split; [reflexivity|].
    split; [apply magics_message_passed | apply magics_message_embeds].
Qed.

Example magics_all_whitelisted :
  snd <$> @lint_magics str_sorted (VSet {[ SStr "timeit" ]})
            (VSet {[ SStr "timeit"; SStr "time" ]}) VNone
  = Ok true.
Proof. vm_compute. reflexivity. Qed.

Example magics_bash_not_whitelisted :
  @lint_magics str_sorted (VSet {[ SStr "timeit"; SStr "bash" ]})
     (VSet {[ SStr "timeit" ]}) VNone
  = Ok ([magics_message (H := str_sorted) "missing from whitelist:" {[ SStr "bash" ]}], false).
Proof. vm_compute. reflexivity. Qed.

(** * Properties of the orchestrator *)

(** ** [str.strip] *)

Lemma lstrip_nil (s : pystr) : lstrip s = [] ↔ forallb isspace s = true.
Proof.
  induction s as [|c s IH]; [done|]. cbn.
  destruct (isspace c); cbn; [exact IH|]. split; discriminate.
Qed.

Lemma lstrip_head (s : pystr) c t : lstrip s = c :: t → isspace c = false.
Proof.
  induction s as [|d s IH]; [discriminate|]. cbn.
  destruct (isspace d) eqn:Hd; [exact IH|]. by intros [= -> _].
Qed.

Lemma forallb_reverse {A} (f : A → bool) (l : list A) :
  forallb f (reverse l) = forallb f l.
Proof.
  induction l as [|x l IH]; [done|].
  rewrite reverse_cons, forallb_app, IH. cbn. rewrite andb_true_r. apply andb_comm.
Qed.

Lemma strip_nil (s : pystr) : strip s = [] ↔ forallb isspace s = true.
Proof.
  unfold strip, rstrip. rewrite <- lstrip_nil. split.
  - intros Hs. apply (f_equal reverse) in Hs. rewrite reverse_involutive in Hs.
    cbn in Hs. apply lstrip_nil in Hs. rewrite forallb_reverse in Hs.
    destruct (lstrip s) as [|c t] eqn:Hl; [done|].
    apply lstrip_head in Hl. cbn in Hs. rewrite Hl in Hs. discriminate.
  - intros ->. reflexivity.
Qed.

Lemma strip_tab_sep (a b : pystr) :
  strip (a ++ TAB ++ b) = [] ↔ strip (a ++ b) = [].
Proof.
  rewrite !strip_nil, !forallb_app. cbn. tauto.
Qed.

(** ** What the six rule checks return *)

Section RuleFacts.
Context `{Str}.

Lemma enumerate_from_kind (mx : val) (l : list scalar) (i : nat) ms :
  enumerate_from mx i l = Ok ms → Forall (λ m, lm_type m = LINES_PER_CELL) ms.
Proof.
  revert i ms. induction l as [|x l IH]; intros i ms; cbn.
  - intros [= <-]. constructor.
  - unfold lines_message. destruct (py_le _ _) as [ok|e]; cbn; [|discriminate].
    destruct (enumerate_from mx (S i) l) as [ms'|e] eqn:Hl; cbn; [|discriminate].
    intros [= <-]. constructor; [reflexivity|]. by eapply IH.
Qed.

Lemma lint_lines_per_cell_kind (cl mx : val) v :
  lint_lines_per_cell cl mx = Ok v → of_kind LINES_PER_CELL v.
Proof.
  unfold lint_lines_per_cell.
  destruct (py_lt _ _) as [[|]|e]; cbn; try discriminate.
  - intros [= <-]. by split.
  - destruct (py_iter cl) as [l|e]; cbn; [|discriminate].
    destruct (enumerate_from mx 0 l) as [ms|e] eqn:Hl; cbn; [|discriminate].
    intros [= <-]. split; [reflexivity|]. by eapply enumerate_from_kind.
Qed.

Lemma lint_cells_per_notebook_kind (c mx : val) v :
  lint_cells_per_notebook c mx = Ok v → of_kind CELLS_PER_NOTEBOOK v.
Proof.
  unfold lint_cells_per_notebook.
  destruct (py_lt _ _) as [[|]|e]; cbn; try discriminate.
  - intros [= <-]. by split.
  - destruct (py_le _ _) as [p|e]; cbn; [|discriminate].
    intros [= <-]. split; cbn; [by rewrite andb_true_r|]. by repeat constructor.
Qed.

Lemma lint_function_definitions_kind (c mx : val) v :
  lint_function_definitions c mx = Ok v → of_kind FUNCTION_DEFINITIONS v.
Proof.
  unfold lint_function_definitions.
  destruct (py_lt _ _) as [[|]|e]; cbn; try discriminate.
  - intros [= <-]. by split.
  - destruct (py_le _ _) as [p|e]; cbn; [|discriminate].
    intros [= <-]. split; cbn; [by rewrite andb_true_r|]. by repeat constructor.
Qed.

Lemma lint_class_definitions_kind (c mx : val) v :
  lint_class_definitions c mx = Ok v → of_kind CLASS_DEFINITIONS v.
Proof.
  unfold lint_class_definitions.
  destruct (py_lt _ _) as [[|]|e]; cbn; try discriminate.
  - intros [= <-]. by split.
  - destruct (py_le _ _) as [p|e]; cbn; [|discriminate].
    intros [= <-]. split; cbn; [by rewrite andb_true_r|]. by repeat constructor.
Qed.

Lemma lint_kernelspec_kind (ks req : val) v :
  lint_kernelspec ks req = Ok v → of_kind KERNELSPEC v.
Proof.
  unfold lint_kernelspec. destruct (decide _) as [_|_].
  - intros [= <-]. by split.
  - destruct (items ks) as [a|e]; cbn; [|discriminate].
    destruct (items req) as [b|e]; cbn; [|discriminate].
    intros [= <-]. split; cbn; [by rewrite andb_true_r|]. by repeat constructor.
Qed.

Lemma lint_magics_kind (magics wl bl : val) v :
  lint_magics magics wl bl = Ok v → of_kind MAGICS v.
Proof.
  unfold lint_magics.
  destruct (decide _) as [_|_]; [intros [= <-]; by split|].
  destruct (decide _) as [_|_]; [discriminate|].
  destruct (decide _) as [_|_];
    (destruct (py_set magics) as [a|e]; cbn; [|discriminate]);
    (destruct (py_set _) as [b|e]; cbn; [|discriminate]);
    intros [= <-]; (split; cbn; [by rewrite andb_true_r|]); by repeat constructor.
Qed.

Lemma extend_from_rules meta ty acc r acc' :
  from_rules meta acc → enabled meta ty →
  (∀ v, r = Ok v → of_kind ty v) →
  extend acc r = Ok acc' → from_rules meta acc'.
Proof.
  intros [Hp Hk] Hen Hr. unfold extend.
  destruct r as [[ret p]|e]; cbn; [|discriminate].
  destruct (Hr _ eq_refl) as [Hp' Hk']. cbn in *.
  intros [= <-]. split; cbn.
  - by rewrite forallb_app, Hp, Hp'.
  - apply Forall_app. split; [done|].
    eapply Forall_impl; [exact Hk'|]. cbn. by intros m ->.
Qed.

Lemma has_key_enabled meta k ty :
  has_key meta k = true → rule_type k = Some ty → enabled meta ty.
Proof.
  intros Hk Hty. exists k. split; [done|].
  by apply bool_decide_eq_true in Hk.
Qed.

Lemma rule_type_magics_whitelist : rule_type "magics_whitelist" = Some MAGICS.
Proof. reflexivity. Qed.

Lemma rule_type_magics_blacklist : rule_type "magics_blacklist" = Some MAGICS.
Proof. reflexivity. Qed.

(** One [if key in extra_metadata] block of [run_rules]: either the key is
    absent and the accumulator is unchanged, or both lookups and the rule
    return and the accumulator is extended. *)
Ltac rule_block meta K A acc Hacc lem :=
  destruct (has_key meta K) eqn:?HK; cbn [mbind res_bind];
  [ destruct (getitem meta A) as [?a|?]; cbn [mbind res_bind]; [|discriminate];
    destruct (getitem meta K) as [?b|?]; cbn [mbind res_bind]; [|discriminate];
    let acc1 := fresh "acc" in
    let Hext := fresh "Hext" in
    let Hacc1 := fresh "Hacc" in
    destruct (extend acc _) as [acc1|?] eqn:Hext; cbn [mbind res_bind];
      [|discriminate];
    assert (Hacc1 : from_rules meta acc1)
      by (eapply extend_from_rules;
            [ exact Hacc
            | eapply (has_key_enabled meta K); [eassumption|reflexivity]
            | apply lem
            | exact Hext ]);
    clear Hext Hacc; clear acc; revert acc1 Hacc1
  | revert acc Hacc ].

Lemma run_rules_from_rules meta v :
  run_rules meta = Ok v → from_rules meta v.
Proof.
  unfold run_rules.
  assert (H0 : from_rules meta ([], true)) by (split; [done|constructor]).
  revert H0. generalize (([], true) : verdict). intros acc Hacc.
  rule_block meta "lines_per_cell" "cell_lines" acc Hacc
    lint_lines_per_cell_kind; intros acc Hacc.
  all: rule_block meta "cells_per_notebook" "cell_count" acc Hacc
         lint_cells_per_notebook_kind; intros acc Hacc.
  all: rule_block meta "function_definitions" "functions" acc Hacc
         lint_function_definitions_kind; intros acc Hacc.
  all: rule_block meta "class_definitions" "classes" acc Hacc
         lint_class_definitions_kind; intros acc Hacc.
  all: rule_block meta "kernelspec_requirements" "kernelspec" acc Hacc
         lint_kernelspec_kind; intros acc Hacc.
  all: destruct (has_key meta "magics_whitelist" || has_key meta "magics_blacklist")
         eqn:HKm; [|by intros [= <-]].
  all: destruct (getitem meta "magics") as [?|?]; cbn [mbind res_bind];
         [|discriminate].
  all: eapply extend_from_rules; [exact Hacc| |apply lint_magics_kind].
  all: apply orb_true_iff in HKm as [HKm|HKm];
         eauto using has_key_enabled, rule_type_magics_whitelist,
           rule_type_magics_blacklist.
Qed.

End RuleFacts.

(** ** [run], step by step *)

Section RunFacts.
Context `{Str} {source notebook regex : Type}.
Variable nbformat_read : source → res notebook.
Variable extract_extrametadata : notebook → option regex → gmap string val.
Variable from_notebook_node : notebook → pystr.
Variable win32 : bool.

Lemma lint_script_eq sub nb exe argv w :
  lists w !! exe = Some argv →
  lint_script from_notebook_node win32 sub nb exe w =
  (linter_message <$>
     sub win32 (argv ++ [tmp_name (tmp_count w)])
       (<[tmp_name (tmp_count w) := from_notebook_node nb]> (files w)),
   after_linter exe argv w).
Proof.
  intros Hexe.
  unfold lint_script, after_linter, try_finally, mbind, M_bind, NamedTemporaryFile,
    write_close, list_append, _run_and_capture_utf8, os_remove, mret, M_ret.
  cbn. rewrite Hexe. cbn. rewrite lookup_insert_eq. cbn.
  rewrite !insert_insert_eq.
  destruct (sub win32 _ _) as [cp|e]; cbn; rewrite lookup_insert_eq;
    rewrite delete_insert_eq; reflexivity.
Qed.

Lemma run_eq sub notebook_ executable rules noqa_regex w :
  run nbformat_read extract_extrametadata from_notebook_node win32 sub
    notebook_ executable rules noqa_regex w =
  match rule_part nbformat_read extract_extrametadata notebook_ rules noqa_regex with
  | Raise e => (Raise e, w)
  | Ok (nb, (ret, passed)) =>
      match executable, executable ≫= (λ l, lists w !! l) with
      | Some exe, Some (a :: l) =>
          ((λ m, (ret ++ [m], passed)) <$>
             (linter_message <$>
               sub win32 (a :: l ++ [tmp_name (tmp_count w)])
                 (<[tmp_name (tmp_count w) := from_notebook_node nb]> (files w))),
           after_linter exe (a :: l) w)
      | _, _ => (Ok (ret, passed), w)
      end
  end.
Proof.
  unfold run, rule_part, lift, deref.
  unfold mbind at 1 2 3 4. unfold M_bind.
  destruct (nbformat_read notebook_) as [nb|e]; cbn; [|reflexivity].
  destruct (drop_noqa _) as [meta|e]; cbn; [|reflexivity].
  destruct (run_rules meta) as [[ret passed]|e]; cbn; [|reflexivity].
  destruct executable as [exe|]; cbn; [|reflexivity].
  destruct (lists w !! exe) as [[|a l]|] eqn:Hexe; cbn; try reflexivity.
  unfold mbind, M_bind. rewrite (lint_script_eq _ _ _ _ _ Hexe).
  destruct (sub win32 _ _); reflexivity.
Qed.

End RunFacts.

(** ** The noqa filter *)

Lemma lookup_set_fold_delete (m : gmap string val) (X : gset string) (j : string) :
  set_fold delete m X !! j = if decide (j ∈ X) then None else m !! j.
Proof.
  revert X.
  apply (set_fold_ind_L
    (λ r (Y : gset string), r !! j = if decide (j ∈ Y) then None else m !! j)).
  - rewrite decide_False by set_solver. reflexivity.
  - intros x X r Hx IH. destruct (decide (j = x)) as [->|Hne].
    + rewrite lookup_delete_eq, decide_True by set_solver. reflexivity.
    + rewrite lookup_delete_ne by done. rewrite IH.
      destruct (decide (j ∈ X)).
      * rewrite decide_True by (apply elem_of_union; by right). reflexivity.
      * rewrite decide_False; [reflexivity|].
        rewrite elem_of_union, elem_of_singleton. tauto.
Qed.

Lemma drop_noqa_lookup (merged : gmap string val) (noqa : val) (s : gset scalar) :
  merged !! "noqa" = Some noqa → py_set noqa = Ok s →
  ∃ meta, drop_noqa merged = Ok meta
          ∧ ∀ j, meta !! j = if decide (SStr j ∈ s) then None else merged !! j.
Proof.
  intros Hnoqa Hs. unfold drop_noqa, getitem, py_and_keys.
  rewrite Hnoqa. cbn [mbind res_bind]. rewrite Hs. cbn [mbind res_bind].
  eexists. split; [reflexivity|]. intros j.
  rewrite lookup_set_fold_delete.
  destruct (decide (SStr j ∈ s)) as [Hj|Hj].
  - destruct (merged !! j) as [v|] eqn:Hm.
    + rewrite decide_True; [done|]. apply elem_of_filter. split; [done|].
      apply elem_of_dom. by rewrite Hm.
    + by destruct (decide _).
  - rewrite decide_False; [done|]. rewrite elem_of_filter. tauto.
Qed.

Lemma merge_rules_delete (k : string) (em : gmap string val)
    (rules : option (gmap string val)) :
  merge_rules (delete k em) (delete k <$> rules) = delete k (merge_rules em rules).
Proof.
  unfold merge_rules. destruct rules as [r|]; cbn.
  - by rewrite delete_union.
  - by rewrite delete_union, delete_empty.
Qed.

Lemma drop_noqa_without (k : string) (merged : gmap string val) (noqa : val)
    (s : gset scalar) :
  k ≠ "noqa" → merged !! "noqa" = Some noqa → py_set noqa = Ok s → SStr k ∈ s →
  drop_noqa (delete k merged) = drop_noqa merged.
Proof.
  intros Hk Hnoqa Hs Hin.
  destruct (drop_noqa_lookup merged noqa s Hnoqa Hs) as (meta & -> & Hmeta).
  assert (Hnoqa' : delete k merged !! "noqa" = Some noqa)
    by (by rewrite lookup_delete_ne).
  destruct (drop_noqa_lookup _ noqa s Hnoqa' Hs) as (meta' & -> & Hmeta').
  f_equal. apply map_eq. intros j. rewrite Hmeta, Hmeta'.
  destruct (decide (SStr j ∈ s)) as [|Hj]; [done|].
  rewrite lookup_delete_ne; [done|]. by intros ->.
Qed.

Lemma rule_key_not_noqa (k : string) : k ∈ rule_keys → k ≠ "noqa".
Proof.
  unfold rule_keys. rewrite !elem_of_cons, elem_of_nil.
  intros Hk ->. repeat destruct Hk as [Hk|Hk]; done.
Qed.


(** ** The six checks inside [run_rules] *)

Lemma has_key_true (d : gmap string val) (k : string) :
  has_key d k = true ↔ is_Some (d !! k).
Proof. apply bool_decide_eq_true. Qed.

Lemma has_key_false (d : gmap string val) (k : string) :
  has_key d k = false ↔ d !! k = None.
Proof.
  unfold has_key. rewrite bool_decide_eq_false. symmetry. apply eq_None_not_Some.
Qed.

Lemma block_checked (meta : gmap string val) (key data : string)
    (rule : val → val → res verdict) (acc acc' : verdict) :
  (if has_key meta key then
     x ← getitem meta data; setting ← getitem meta key;
     extend acc (rule x setting)
   else Ok acc) = Ok acc' →
  ∃ v, checked meta key data rule v ∧ acc' = (acc.1 ++ v.1, acc.2 && v.2).
Proof.
  destruct (has_key meta key) eqn:Hk.
  - unfold getitem. destruct (meta !! data) as [x|] eqn:Hx;
      cbn [mbind res_bind]; [|discriminate].
    destruct (meta !! key) as [setting|] eqn:Hs; cbn [mbind res_bind];
      [|discriminate].
    unfold extend. destruct (rule x setting) as [[ret p]|e] eqn:Hr;
      cbn [mbind res_bind]; [|discriminate].
    intros [= <-]. exists (ret, p). split; [|reflexivity].
    right. by exists x, setting.
  - intros [= <-]. exists ([], true). split.
    + left. by apply has_key_false in Hk.
    + destruct acc as [ret p]. cbn. by rewrite app_nil_r, andb_true_r.
Qed.

Lemma magics_block_checked `{Str} (meta : gmap string val) (acc acc' : verdict) :
  (if has_key meta "magics_whitelist" || has_key meta "magics_blacklist" then
     magics ← getitem meta "magics";
     extend acc (lint_magics magics (get_or_none meta "magics_whitelist")
                   (get_or_none meta "magics_blacklist"))
   else Ok acc) = Ok acc' →
  ∃ v, checked_magics meta v ∧ acc' = (acc.1 ++ v.1, acc.2 && v.2).
Proof.
  destruct (has_key meta "magics_whitelist" || has_key meta "magics_blacklist")
    eqn:Hk.
  - unfold getitem. destruct (meta !! "magics") as [x|] eqn:Hx;
      cbn [mbind res_bind]; [|discriminate].
    unfold extend. destruct (lint_magics x _ _) as [[ret p]|e] eqn:Hr;
      cbn [mbind res_bind]; [|discriminate].
    intros [= <-]. exists (ret, p). split; [|reflexivity].
    right. exists x. split; [|done].
    apply orb_true_iff in Hk as [Hk|Hk]; apply has_key_true in Hk; auto.
  - intros [= <-]. exists ([], true). split.
    + apply orb_false_iff in Hk as [Hw Hb]. left.
      apply has_key_false in Hw, Hb. done.
    + destruct acc as [ret p]. cbn. by rewrite app_nil_r, andb_true_r.
Qed.

(** [run_rules] is the six checks one after the other: its messages are
    theirs, in order, and its flag is the conjunction of their flags. *)
Lemma run_rules_six_checks `{Str} (meta : gmap string val) (v : verdict) :
  run_rules meta = Ok v →
  ∃ v1 v2 v3 v4 v5 v6,
    checked meta "lines_per_cell" "cell_lines" lint_lines_per_cell v1
    ∧ checked meta "cells_per_notebook" "cell_count" lint_cells_per_notebook v2
    ∧ checked meta "function_definitions" "functions"
        lint_function_definitions v3
    ∧ checked meta "class_definitions" "classes" lint_class_definitions v4
    ∧ checked meta "kernelspec_requirements" "kernelspec" lint_kernelspec v5
    ∧ checked_magics meta v6
    ∧ v = (v1.1 ++ v2.1 ++ v3.1 ++ v4.1 ++ v5.1 ++ v6.1,
           v1.2 && v2.2 && v3.2 && v4.2 && v5.2 && v6.2).
Proof.
  unfold run_rules.
  match goal with |- (?b ≫= _) = _ → _ =>
    destruct b as [a1|] eqn:E1; cbn [mbind res_bind]; [|discriminate] end.
  match goal with |- (?b ≫= _) = _ → _ =>
    destruct b as [a2|] eqn:E2; cbn [mbind res_bind]; [|discriminate] end.
  match goal with |- (?b ≫= _) = _ → _ =>
    destruct b as [a3|] eqn:E3; cbn [mbind res_bind]; [|discriminate] end.
  match goal with |- (?b ≫= _) = _ → _ =>
    destruct b as [a4|] eqn:E4; cbn [mbind res_bind]; [|discriminate] end.
  match goal with |- (?b ≫= _) = _ → _ =>
    destruct b as [a5|] eqn:E5; cbn [mbind res_bind]; [|discriminate] end.
  intros E6.
  apply block_checked in E1 as (v1 & C1 & ->).
  apply block_checked in E2 as (v2 & C2 & ->).
  apply block_checked in E3 as (v3 & C3 & ->).
  apply block_checked in E4 as (v4 & C4 & ->).
  apply block_checked in E5 as (v5 & C5 & ->).
  apply magics_block_checked in E6 as (v6 & C6 & ->).
  exists v1, v2, v3, v4, v5, v6. repeat (split; [assumption|]).
  cbn [fst snd]. by rewrite <- !app_assoc.
Qed.

(** ** The orchestrator on concrete notebooks *)

Lemma complaint_leaves_flag_true :
  ∃ ret w' m,
    run_demo (fixed_linter 0 (lit "E1") []) two_cells (Some flake8)
      (Some {[ "lines_per_cell" := VInt 9 ]}) None caller_world
      = (Ok (ret, true), w')
    ∧ m ∈ ret ∧ lm_type m = LINTER ∧ lm_passed m = false.
Proof.
  remember (run_demo _ _ _ _ _ _) as r eqn:Hr. vm_compute in Hr. subst r.
  eexists _, _, (mkLintMessage _ _ LINTER false).
  split; [reflexivity|]. split; [|done].
  do 2 apply list_elem_of_further. apply list_elem_of_here.
Qed.

Section RunClaims.
Context `{Str} {source notebook regex : Type}.
Variable nbformat_read : source → res notebook.
Variable extract_extrametadata : notebook → option regex → gmap string val.
Variable from_notebook_node : notebook → pystr.
Variable win32 : bool.
Variable subprocess_run :
  bool → list string → gmap string pystr → res CompletedProcess.

Lemma rule_part_without (k : string) notebook_ rules noqa_regex nb noqa s :
  k ∈ rule_keys →
  nbformat_read notebook_ = Ok nb →
  merge_rules (extract_extrametadata nb noqa_regex) rules !! "noqa" = Some noqa →
  py_set noqa = Ok s → SStr k ∈ s →
  rule_part nbformat_read (λ nb rx, delete k (extract_extrametadata nb rx))
    notebook_ (delete k <$> rules) noqa_regex
  = rule_part nbformat_read extract_extrametadata notebook_ rules noqa_regex.
Proof.
  intros Hk Hnb Hnoqa Hs Hin. unfold rule_part. rewrite Hnb.
  cbn [mbind res_bind]. rewrite merge_rules_delete.
  by rewrite (drop_noqa_without k _ noqa s (rule_key_not_noqa k Hk) Hnoqa Hs Hin).
Qed.

Lemma rule_messages_not_linter meta v :
  from_rules meta v → Forall (λ m, lm_type m ≠ LINTER) v.1.
Proof.
  intros [_ Hv]. eapply Forall_impl; [exact Hv|]. cbn.
  intros m (k & Hk & _) Hm. rewrite Hm in Hk. unfold rule_type in Hk.
  repeat case_decide; discriminate.
Qed.

Lemma rule_part_from_rules notebook_ rules noqa_regex nb v :
  rule_part nbformat_read extract_extrametadata notebook_ rules noqa_regex
    = Ok (nb, v) →
  nbformat_read notebook_ = Ok nb
  ∧ ∃ meta,
      drop_noqa (merge_rules (extract_extrametadata nb noqa_regex) rules) = Ok meta
      ∧ run_rules meta = Ok v
      ∧ from_rules meta v.
Proof.
  unfold rule_part.
  destruct (nbformat_read notebook_) as [nb'|e]; cbn [mbind res_bind]; [|discriminate].
  destruct (drop_noqa _) as [meta|e] eqn:Hd; cbn [mbind res_bind]; [|discriminate].
  destruct (run_rules meta) as [v'|e] eqn:Hr; cbn [mbind res_bind]; [|discriminate].
  intros [= -> ->]. split; [done|]. exists meta. rewrite Hd.
  eauto using run_rules_from_rules.
Qed.

(** C9.  When the checks before it return and [executable] is a non-empty
    list, [run] appends exactly one LINTER message, at cell index -1, to the
    messages of the rule checks (none of which is of that kind).  The
    message passes exactly when the captured stdout and stderr, joined by
    a tab and stripped, are empty, which is the case exactly when stdout
    followed by stderr strips to nothing.  The exit status plays no role:
    any process with the same two outputs yields the same verdict. *)
Theorem linter_message_from_output notebook_ exe rules noqa_regex w
    nb ret passed a l cp :
  rule_part nbformat_read extract_extrametadata notebook_ rules noqa_regex
    = Ok (nb, (ret, passed)) →
  lists w !! exe = Some (a :: l) →
  subprocess_run win32 (a :: l ++ [tmp_name (tmp_count w)])
    (<[tmp_name (tmp_count w) := from_notebook_node nb]> (files w)) = Ok cp →
  ∃ m w',
    run nbformat_read extract_extrametadata from_notebook_node win32
      subprocess_run notebook_ (Some exe) rules noqa_regex w
      = (Ok (ret ++ [m], passed), w')
    ∧ Forall (λ r, lm_type r ≠ LINTER) ret
    ∧ lm_type m = LINTER
    ∧ lm_cell m = -1
    ∧ lm_message m
        = lit "Checking lint:" ++ NL ++ strip (stdout cp ++ TAB ++ stderr cp)
    ∧ (lm_passed m = true ↔ strip (stdout cp ++ TAB ++ stderr cp) = [])
    ∧ (lm_passed m = true ↔ strip (stdout cp ++ stderr cp) = [])
    ∧ ∀ other cp',
        other win32 (a :: l ++ [tmp_name (tmp_count w)])
          (<[tmp_name (tmp_count w) := from_notebook_node nb]> (files w))
          = Ok cp' →
        stdout cp' = stdout cp → stderr cp' = stderr cp →
        (run nbformat_read extract_extrametadata from_notebook_node win32
           other notebook_ (Some exe) rules noqa_regex w).1
        = Ok (ret ++ [m], passed).
Proof.
  intros Hrules Hexe Hsub.
  exists (linter_message cp), (after_linter exe (a :: l) w).
  split; [|split; [|split; [|split; [|split; [|split; [|split]]]]]].
  - rewrite run_eq, Hrules. cbn. rewrite Hexe. cbn in Hsub |- *.
    by rewrite Hsub.
  - apply rule_part_from_rules in Hrules as (_ & meta & _ & _ & Hfrom).
    by apply rule_messages_not_linter in Hfrom.
  - reflexivity.
  - reflexivity.
  - reflexivity.
  - unfold linter_message; cbn [lm_passed]. by destruct (decide _).
  - rewrite <- strip_tab_sep.
    unfold linter_message; cbn [lm_passed]. by destruct (decide _).
  - intros other cp' Hother Hout Herr.
    rewrite run_eq, Hrules. cbn. rewrite Hexe. cbn in Hother |- *.
    rewrite Hother. cbn. unfold linter_message. by rewrite Hout, Herr.
Qed.

(** C3.  A rule key that is in the merged configuration and that the
    [noqa] entry of the merged configuration names is gone after line 108.
    Every message [run] then returns is the LINTER message or stems from
    another rule key that is still in the configuration, and the whole
    outcome of [run] is what it would be with the key absent from both the
    extracted metadata and the caller's rules: it adds no message and does
    not touch the flag, also when the caller supplied it. *)
Theorem noqa_drops_merged_rule (k : string) notebook_ executable rules
    noqa_regex w nb noqa s :
  k ∈ rule_keys →
  nbformat_read notebook_ = Ok nb →
  is_Some (merge_rules (extract_extrametadata nb noqa_regex) rules !! k) →
  merge_rules (extract_extrametadata nb noqa_regex) rules !! "noqa" = Some noqa →
  py_set noqa = Ok s →
  SStr k ∈ s →
  (∃ meta,
     drop_noqa (merge_rules (extract_extrametadata nb noqa_regex) rules) = Ok meta
     ∧ meta !! k = None
     ∧ ∀ ret passed w',
         run nbformat_read extract_extrametadata from_notebook_node win32
           subprocess_run notebook_ executable rules noqa_regex w
           = (Ok (ret, passed), w') →
         ∀ m, m ∈ ret →
           lm_type m = LINTER
           ∨ ∃ k', k' ≠ k ∧ rule_type k' = Some (lm_type m) ∧ is_Some (meta !! k'))
  ∧ run nbformat_read extract_extrametadata from_notebook_node win32
      subprocess_run notebook_ executable rules noqa_regex w
    = run nbformat_read (λ nb rx, delete k (extract_extrametadata nb rx))
        from_notebook_node win32 subprocess_run notebook_ executable
        (delete k <$> rules) noqa_regex w.
Proof.
  intros Hk Hnb _ Hnoqa Hs Hin. split.
  - destruct (drop_noqa_lookup _ noqa s Hnoqa Hs) as (meta & Hmeta & Hlook).
    exists meta. split; [done|].
    assert (Hgone : meta !! k = None) by (by rewrite Hlook, decide_True).
    split; [done|]. intros ret passed w' Hrun m Hm.
    rewrite run_eq in Hrun.
    destruct (rule_part _ _ _ _ _) as [[nb' [ret0 p0]]|e] eqn:Hpart;
      [|discriminate].
    apply rule_part_from_rules in Hpart as (Hnb' & meta' & Hmeta' & _ & Hfrom).
    assert (nb' = nb) as -> by congruence.
    assert (meta' = meta) as -> by congruence.
    assert (Hret0 : ∀ r, r ∈ ret0 →
              ∃ k', k' ≠ k ∧ rule_type k' = Some (lm_type r)
                    ∧ is_Some (meta !! k')).
    { intros r Hr. destruct Hfrom as [_ Hall].
      rewrite Forall_forall in Hall. destruct (Hall r Hr) as (k' & Hty & Hsome).
      exists k'. split; [|done]. intros ->. rewrite Hgone in Hsome.
      by destruct Hsome. }
    cbn in Hrun.
    destruct executable as [exe|]; cbn in Hrun;
      [|injection Hrun as <- <- <-; right; by apply Hret0].
    destruct (lists w !! exe) as [[|a l]|]; cbn in Hrun;
      try (injection Hrun as <- <- <-; right; by apply Hret0).
    destruct (subprocess_run win32 _ _) as [cp|e]; cbn in Hrun; [|discriminate].
    injection Hrun as <- <- <-.
    apply elem_of_app in Hm as [Hm|Hm]; [right; by apply Hret0|].
    apply list_elem_of_singleton in Hm as ->. by left.
  - rewrite !run_eq.
    by rewrite (rule_part_without k notebook_ rules noqa_regex nb noqa s).
Qed.

(** C10.  Whenever [run] returns, its flag is the conjunction of the flags
    of exactly the six rule checks on the merged and filtered
    configuration: what [lint_lines_per_cell], [lint_cells_per_notebook],
    [lint_function_definitions], [lint_class_definitions],
    [lint_kernelspec] and [lint_magics] return there, a check whose key is
    absent counting as a pass.  The returned messages are the messages of
    these checks, in that order, followed by the LINTER message if there is
    one; the flag of the LINTER message is never folded in, so the flag is
    also the conjunction of the flags of the messages that are not of kind
    LINTER.  Hence [run] can return [True] together with a failing LINTER
    message, as it does on a notebook that meets its rules and a linter
    that prints a complaint. *)
Theorem overall_flag_ignores_linter :
  (∀ notebook_ executable rules noqa_regex w ret passed w',
     run nbformat_read extract_extrametadata from_notebook_node win32
       subprocess_run notebook_ executable rules noqa_regex w
       = (Ok (ret, passed), w') →
     (∃ nb meta v1 v2 v3 v4 v5 v6,
        nbformat_read notebook_ = Ok nb
        ∧ drop_noqa (merge_rules (extract_extrametadata nb noqa_regex) rules)
          = Ok meta
        ∧ checked meta "lines_per_cell" "cell_lines" lint_lines_per_cell v1
        ∧ checked meta "cells_per_notebook" "cell_count"
            lint_cells_per_notebook v2
        ∧ checked meta "function_definitions" "functions"
            lint_function_definitions v3
        ∧ checked meta "class_definitions" "classes" lint_class_definitions v4
        ∧ checked meta "kernelspec_requirements" "kernelspec" lint_kernelspec v5
        ∧ checked_magics meta v6
        ∧ passed = v1.2 && v2.2 && v3.2 && v4.2 && v5.2 && v6.2
        ∧ (ret = v1.1 ++ v2.1 ++ v3.1 ++ v4.1 ++ v5.1 ++ v6.1
           ∨ ∃ m, ret = (v1.1 ++ v2.1 ++ v3.1 ++ v4.1 ++ v5.1 ++ v6.1) ++ [m]
                  ∧ lm_type m = LINTER))
     ∧ passed = forallb lm_passed (filter (λ m, lm_type m ≠ LINTER) ret)
     ∧ ∃ nb ret0,
         rule_part nbformat_read extract_extrametadata notebook_ rules
           noqa_regex = Ok (nb, (ret0, passed))
         ∧ (ret = ret0 ∨ ∃ m, ret = ret0 ++ [m] ∧ lm_type m = LINTER))
  ∧ ∃ ret w' m,
      run_demo (fixed_linter 0 (lit "E1") []) two_cells (Some flake8)
        (Some {[ "lines_per_cell" := VInt 9 ]}) None caller_world
        = (Ok (ret, true), w')
      ∧ m ∈ ret ∧ lm_type m = LINTER ∧ lm_passed m = false.
Proof.
  split; [|exact complaint_leaves_flag_true].
  intros notebook_ executable rules noqa_regex w ret passed w' Hrun.
  rewrite run_eq in Hrun.
  destruct (rule_part _ _ _ _ _) as [[nb [ret0 p0]]|e] eqn:Hpart; [|discriminate].
  pose proof Hpart as Hpart'.
  apply rule_part_from_rules in Hpart' as (Hnb & meta & Hmeta & Hrules & Hfrom).
  pose proof (rule_messages_not_linter _ _ Hfrom) as Hnl.
  destruct Hfrom as [Hflag _]. cbn in Hflag, Hnl.
  assert (Hfilter : filter (λ m, lm_type m ≠ LINTER) ret0 = ret0).
  { clear -Hnl. induction Hnl as [|m r Hm _ IH]; [done|].
    rewrite filter_cons_True by done. by rewrite IH. }
  assert (Hcase : passed = p0
            ∧ (ret = ret0 ∨ ∃ m, ret = ret0 ++ [m] ∧ lm_type m = LINTER)).
  { destruct executable as [exe|]; cbn in Hrun;
      [|injection Hrun as <- <- <-; auto].
    destruct (lists w !! exe) as [[|a l]|]; cbn in Hrun;
      try (injection Hrun as <- <- <-; auto).
    destruct (subprocess_run win32 _ _) as [cp|e]; cbn in Hrun; [|discriminate].
    injection Hrun as <- <- <-. split; [done|]. right.
    by exists (linter_message cp). }
  destruct Hcase as [-> Hret].
  apply run_rules_six_checks in Hrules
    as (v1 & v2 & v3 & v4 & v5 & v6 & C1 & C2 & C3 & C4 & C5 & C6 & Hv).
  injection Hv as Hret0 Hp0.
  split; [|split; [|by exists nb, ret0]].
  - exists nb, meta, v1, v2, v3, v4, v5, v6.
    do 8 (split; [assumption|]). split; [exact Hp0|].
    rewrite <- Hret0. exact Hret.
  - destruct Hret as [->|(m & -> & Hm)].
    + by rewrite Hfilter.
    + rewrite filter_app, Hfilter, filter_cons_False, filter_nil, app_nil_r;
        [done|].
      intros Hne. by apply Hne.
Qed.

End RunClaims.

(** C9 on a linter that prints nothing and exits with status 1: the
    message passes. *)
Lemma linter_message_from_output_witness :
  rule_part (H := str_sorted) demo_read demo_extract two_cells None None
    = Ok (two_cells, ([], true))
  ∧ lists caller_world !! flake8 = Some ["flake8"; "--ignore=W391"]
  ∧ fixed_linter 1 [] [] false
      ("flake8" :: ["--ignore=W391"] ++ [tmp_name (tmp_count caller_world)])
      (<[tmp_name (tmp_count caller_world) := demo_script two_cells]>
         (files caller_world))
    = Ok (mkCompletedProcess 1 [] [])
  ∧ ∃ m w',
      run_demo (fixed_linter 1 [] []) two_cells (Some flake8) None None
        caller_world = (Ok ([] ++ [m], true), w')
      ∧ lm_type m = LINTER
      ∧ lm_cell m = -1
      ∧ lm_passed m = true.
Proof.
  assert (H1 : rule_part (H := str_sorted) demo_read demo_extract two_cells None None
                 = Ok (two_cells, ([], true)))
    by (vm_compute; reflexivity).
  assert (H2 : lists caller_world !! flake8 = Some ["flake8"; "--ignore=W391"])
    by (vm_compute; reflexivity).
  assert (H3 : fixed_linter 1 [] [] false
      ("flake8" :: ["--ignore=W391"] ++ [tmp_name (tmp_count caller_world)])
      (<[tmp_name (tmp_count caller_world) := demo_script two_cells]>
         (files caller_world))
    = Ok (mkCompletedProcess 1 [] []))
    by reflexivity.
  split; [exact H1|]. split; [exact H2|]. split; [exact H3|].
  destruct (@linter_message_from_output str_sorted demo_notebook demo_notebook
              unit demo_read demo_extract demo_script false
              (fixed_linter 1 [] []) two_cells flake8 None None caller_world
              two_cells [] true "flake8" ["--ignore=W391"]
              (mkCompletedProcess 1 [] []) H1 H2 H3)
    as (m & w' & Hrun & _ & Hty & Hcell & _ & Hpass & _).
  exists m, w'. split; [exact Hrun|]. split; [exact Hty|]. split; [exact Hcell|].
  apply Hpass. vm_compute. reflexivity.
Defined.

(** C3 on a notebook whose noqa marker names [lines_per_cell], a key that
    only the caller's rules supply. *)
Lemma noqa_drops_merged_rule_witness :
  "lines_per_cell" ∈ rule_keys
  ∧ demo_read two_cells_noqa = Ok two_cells_noqa
  ∧ is_Some (merge_rules (demo_extract two_cells_noqa None)
               (Some {[ "lines_per_cell" := VInt 3 ]}) !! "lines_per_cell")
  ∧ merge_rules (demo_extract two_cells_noqa None)
      (Some {[ "lines_per_cell" := VInt 3 ]}) !! "noqa"
    = Some (VSet {[ SStr "lines_per_cell" ]})
  ∧ py_set (VSet {[ SStr "lines_per_cell" ]}) = Ok {[ SStr "lines_per_cell" ]}
  ∧ SStr "lines_per_cell" ∈ ({[ SStr "lines_per_cell" ]} : gset scalar)
  ∧ run_demo (fixed_linter 0 [] []) two_cells_noqa None
      (Some {[ "lines_per_cell" := VInt 3 ]}) None caller_world
    = @run str_sorted demo_notebook demo_notebook unit demo_read
        (λ nb rx, delete "lines_per_cell" (demo_extract nb rx))
        demo_script false (fixed_linter 0 [] []) two_cells_noqa None
        (delete "lines_per_cell" <$> Some {[ "lines_per_cell" := VInt 3 ]})
        None caller_world.
Proof.
  assert (H1 : "lines_per_cell" ∈ rule_keys) by apply list_elem_of_here.
  assert (H2 : demo_read two_cells_noqa = Ok two_cells_noqa) by reflexivity.
  assert (H3 : is_Some (merge_rules (demo_extract two_cells_noqa None)
               (Some {[ "lines_per_cell" := VInt 3 ]}) !! "lines_per_cell"))
    by (exists (VInt 3); vm_compute; reflexivity).
  assert (H4 : merge_rules (demo_extract two_cells_noqa None)
      (Some {[ "lines_per_cell" := VInt 3 ]}) !! "noqa"
    = Some (VSet {[ SStr "lines_per_cell" ]}))
    by (vm_compute; reflexivity).
  assert (H5 : py_set (VSet {[ SStr "lines_per_cell" ]})
                 = Ok {[ SStr "lines_per_cell" ]})
    by apply py_set_VSet.
  assert (H6 : SStr "lines_per_cell" ∈ ({[ SStr "lines_per_cell" ]} : gset scalar))
    by (by apply elem_of_singleton).
  repeat (split; [assumption|]).
  exact (proj2 (@noqa_drops_merged_rule str_sorted demo_notebook demo_notebook
                  unit demo_read demo_extract demo_script false
                  (fixed_linter 0 [] []) "lines_per_cell" two_cells_noqa None
                  (Some {[ "lines_per_cell" := VInt 3 ]}) None caller_world
                  two_cells_noqa (VSet {[ SStr "lines_per_cell" ]})
                  {[ SStr "lines_per_cell" ]} H1 H2 H3 H4 H5 H6)).
Defined.

(** The caller's limit of 3 lines fails on the second cell; with the
    notebook's noqa marker the same call returns nothing and [True]. *)
Example noqa_silences_callers_rule :
  snd <$> (run_demo (fixed_linter 0 [] []) two_cells None
             (Some {[ "lines_per_cell" := VInt 3 ]}) None caller_world).1
    = Ok false
  ∧ run_demo (fixed_linter 0 [] []) two_cells_noqa None
      (Some {[ "lines_per_cell" := VInt 3 ]}) None caller_world
    = (Ok ([], true), caller_world).
Proof. split; vm_compute; reflexivity. Qed.

(** C3 does not hold for the noqa set the extractor returned.  [run] reads
    the set after the merge, so a caller whose rules carry a [noqa] entry
    of their own replaces the notebook's: here the notebook marks
    [lines_per_cell] as noqa, the caller passes an empty [noqa] next to
    [lines_per_cell = 3], and the rule is still checked and fails. *)
Lemma callers_noqa_entry_replaces_extracted :
  let rules := Some {[ "lines_per_cell" := VInt 3; "noqa" := VSet ∅ ]} in
  let merged := merge_rules (demo_extract two_cells_noqa None) rules in
  demo_extract two_cells_noqa None !! "noqa"
    = Some (VSet {[ SStr "lines_per_cell" ]})
  ∧ merged !! "lines_per_cell" = Some (VInt 3)
  ∧ (meta ← drop_noqa merged; Ok (meta !! "lines_per_cell"))
    = Ok (Some (VInt 3))
  ∧ (λ v : verdict, (lm_type <$> v.1, lm_passed <$> v.1, v.2))
      <$> (run_demo (fixed_linter 0 [] []) two_cells_noqa None rules None
             caller_world).1
    = Ok ([LINES_PER_CELL; LINES_PER_CELL], [true; false], false).
Proof. cbv zeta. repeat split; vm_compute; reflexivity. Qed.

Section Aliasing.
Context `{Str} {source notebook regex : Type}.
Variable nbformat_read : source → res notebook.
Variable extract_extrametadata : notebook → option regex → gmap string val.
Variable from_notebook_node : notebook → pystr.
Variable win32 : bool.
Variable subprocess_run :
  bool → list string → gmap string pystr → res CompletedProcess.

(** Whenever [run] gets as far as line 150, the caller's own list ends up
    one element longer, whether the linter then runs or raises. *)
Lemma run_extends_executable notebook_ exe rules noqa_regex w nb v a l :
  rule_part nbformat_read extract_extrametadata notebook_ rules noqa_regex
    = Ok (nb, v) →
  lists w !! exe = Some (a :: l) →
  lists (run nbformat_read extract_extrametadata from_notebook_node win32
           subprocess_run notebook_ (Some exe) rules noqa_regex w).2 !! exe
  = Some (a :: l ++ [tmp_name (tmp_count w)]).
Proof.
  intros Hrules Hexe. rewrite run_eq, Hrules. destruct v as [ret passed].
  cbn. rewrite Hexe. cbn. apply lookup_insert_eq.
Qed.

End Aliasing.

(** C2.  [run] does not leave its [executable] argument as it found it:
    line 150 appends the temporary name to the caller's list.  With the
    command of the entry point, a first call leaves the list one element
    longer, holding the name of a file that is deleted by then; a second
    call with the same list spawns a different command, with both names. *)
Theorem run_appends_to_callers_list :
  let first := run_demo (fixed_linter 0 [] []) two_cells (Some flake8)
                 None None caller_world in
  let second := run_demo (fixed_linter 0 [] []) two_cells (Some flake8)
                  None None first.2 in
  lists caller_world !! flake8 = Some ["flake8"; "--ignore=W391"]
  ∧ lists first.2 !! flake8
      = Some ["flake8"; "--ignore=W391"; "/tmp/tmp0.py"]
  ∧ files first.2 !! "/tmp/tmp0.py" = None
  ∧ lists second.2 !! flake8
      = Some ["flake8"; "--ignore=W391"; "/tmp/tmp0.py"; "/tmp/tmp1.py"]
  ∧ spawned second.2
      = [ ["flake8"; "--ignore=W391"; "/tmp/tmp0.py"];
          ["flake8"; "--ignore=W391"; "/tmp/tmp0.py"; "/tmp/tmp1.py"] ].
Proof. cbv zeta. repeat split; vm_compute; reflexivity. Qed.

(** * Further properties of the rule functions *)

Lemma embedded_middle (p a q : pystr) : embedded a (p ++ a ++ q).
Proof. by exists p, q. Qed.

Lemma embedded_last (p q a r : pystr) : embedded a (p ++ q ++ r ++ a ++ lit ")").
Proof. exists (p ++ q ++ r), (lit ")"). by rewrite <- !app_assoc. Qed.

(** X2.  With a threshold [t >= 0] (zero included) and an integer count
    [c], each of the three notebook-level counting rules returns exactly one
    message, at cell index -1 and of its own kind, which passes exactly
    when [c <= t]; the overall flag is that message's flag, and the text
    shows both the threshold and the count. *)
Theorem count_rules_compare `{Str} (c t : Z) :
  0 ≤ t →
  (∃ m, lint_cells_per_notebook (VInt c) (VInt t) = Ok ([m], c <=? t)
        ∧ lm_cell m = -1 ∧ lm_type m = CELLS_PER_NOTEBOOK
        ∧ lm_passed m = (c <=? t)
        ∧ embedded (str_of (VInt t)) (lm_message m)
        ∧ embedded (str_of (VInt c)) (lm_message m))
  ∧ (∃ m, lint_function_definitions (VInt c) (VInt t) = Ok ([m], c <=? t)
          ∧ lm_cell m = -1 ∧ lm_type m = FUNCTION_DEFINITIONS
          ∧ lm_passed m = (c <=? t)
          ∧ embedded (str_of (VInt t)) (lm_message m)
          ∧ embedded (str_of (VInt c)) (lm_message m))
  ∧ (∃ m, lint_class_definitions (VInt c) (VInt t) = Ok ([m], c <=? t)
          ∧ lm_cell m = -1 ∧ lm_type m = CLASS_DEFINITIONS
          ∧ lm_passed m = (c <=? t)
          ∧ embedded (str_of (VInt t)) (lm_message m)
          ∧ embedded (str_of (VInt c)) (lm_message m)).
Proof.
  intros Ht. assert (Hge : (t <? 0) = false) by (apply Z.ltb_ge; lia).
  unfold lint_cells_per_notebook, lint_function_definitions,
    lint_class_definitions.
  rewrite py_lt_int, Hge. cbn [mbind res_bind py_le as_num].
  repeat split; eexists (mkLintMessage _ _ _ _);
    (split; [reflexivity|]); cbn [lm_cell lm_type lm_passed lm_message];
    repeat split; (apply embedded_middle || apply embedded_last).
Qed.

(** X2 at the threshold 0 with one cell: the rule is on and fails. *)
Lemma count_rules_compare_witness :
  0 ≤ 0
  ∧ ∃ m, @lint_cells_per_notebook str_sorted (VInt 1) (VInt 0)
           = Ok ([m], false)
         ∧ lm_cell m = -1 ∧ lm_passed m = false.
Proof.
  split; [lia|].
  destruct (@count_rules_compare str_sorted 1 0 ltac:(lia))
    as [(m & Hm & Hcell & _ & Hpass & _) _].
  exists m. split; [exact Hm|]. split; [exact Hcell|exact Hpass].
Defined.

(** X3.  A threshold that is not a number does not switch a counting rule
    off: it makes the rule raise [TypeError] at the test [max < 0],
    [None] included.  With a threshold [t >= 0], a measured value that is
    not a number raises [TypeError] as well. *)
Theorem threshold_must_be_a_number `{Str} (v thr : val) :
  as_num thr = None →
  lint_lines_per_cell v thr = Raise TypeError
  ∧ lint_cells_per_notebook v thr = Raise TypeError
  ∧ lint_function_definitions v thr = Raise TypeError
  ∧ lint_class_definitions v thr = Raise TypeError
  ∧ ∀ t, 0 ≤ t → as_num v = None →
      lint_cells_per_notebook v (VInt t) = Raise TypeError
      ∧ lint_function_definitions v (VInt t) = Raise TypeError
      ∧ lint_class_definitions v (VInt t) = Raise TypeError.
Proof.
  intros Hthr.
  unfold lint_lines_per_cell, lint_cells_per_notebook,
    lint_function_definitions, lint_class_definitions.
  unfold py_lt at 1 2 3 4. rewrite Hthr. cbn [mbind res_bind].
  do 4 (split; [reflexivity|]).
  intros t Ht Hv. rewrite py_lt_int.
  assert (Hge : (t <? 0) = false) by (apply Z.ltb_ge; lia).
  rewrite Hge. cbn [mbind res_bind]. unfold py_le. rewrite Hv. done.
Qed.

(** X3 at the threshold [None]. *)
Lemma threshold_must_be_a_number_witness :
  as_num VNone = None
  ∧ @lint_lines_per_cell str_sorted (VList [SInt 2]) VNone = Raise TypeError
  ∧ @lint_cells_per_notebook str_sorted (VInt 1) VNone = Raise TypeError.
Proof.
  split; [reflexivity|]. split.
  - apply (@threshold_must_be_a_number str_sorted (VList [SInt 2]) VNone).
    reflexivity.
  - apply (@threshold_must_be_a_number str_sorted (VInt 1) VNone).
    reflexivity.
Defined.

Lemma lines_flag `{Str} (t : Z) (l : list Z) :
  0 ≤ t →
  snd <$> lint_lines_per_cell (VList (SInt <$> l)) (VInt t)
  = Ok (forallb (λ n, n <=? t) l).
Proof.
  intros Ht. unfold lint_lines_per_cell. rewrite py_lt_int.
  assert (Hge : (t <? 0) = false) by (apply Z.ltb_ge; lia).
  rewrite Hge. cbn [py_iter mbind res_bind]. rewrite enumerate_from_ints.
  cbn [mbind res_bind fmap res_fmap snd]. by rewrite forallb_imap_passed.
Qed.

(** X4.  Raising a non-negative threshold never turns a pass into a fail:
    what passes [lint_lines_per_cell] or one of the counting rules at [t]
    passes at every [t' >= t]. *)
Theorem higher_threshold_keeps_pass `{Str} (cell_lines : list Z) (c t t' : Z) :
  0 ≤ t → t ≤ t' →
  (snd <$> lint_lines_per_cell (VList (SInt <$> cell_lines)) (VInt t) = Ok true →
   snd <$> lint_lines_per_cell (VList (SInt <$> cell_lines)) (VInt t') = Ok true)
  ∧ (snd <$> lint_cells_per_notebook (VInt c) (VInt t) = Ok true →
     snd <$> lint_cells_per_notebook (VInt c) (VInt t') = Ok true)
  ∧ (snd <$> lint_function_definitions (VInt c) (VInt t) = Ok true →
     snd <$> lint_function_definitions (VInt c) (VInt t') = Ok true)
  ∧ (snd <$> lint_class_definitions (VInt c) (VInt t) = Ok true →
     snd <$> lint_class_definitions (VInt c) (VInt t') = Ok true).
Proof.
  intros Ht Htt'.
  assert (Hge : (t <? 0) = false) by (apply Z.ltb_ge; lia).
  assert (Hge' : (t' <? 0) = false) by (apply Z.ltb_ge; lia).
  split.
  - rewrite !lines_flag by lia. intros [= Hall]. f_equal.
    apply forallb_forall. intros n Hn.
    rewrite forallb_forall in Hall. specialize (Hall n Hn). lia.
  - unfold lint_cells_per_notebook, lint_function_definitions,
      lint_class_definitions.
    rewrite !py_lt_int, Hge, Hge'.
    cbn [mbind res_bind py_le as_num fmap res_fmap snd].
    repeat split; intros [= Hc]; f_equal; lia.
Qed.

(** X4 from a limit of 5 lines to a limit of 8. *)
Lemma higher_threshold_keeps_pass_witness :
  0 ≤ 5 ∧ 5 ≤ 8
  ∧ snd <$> @lint_lines_per_cell str_sorted (VList (SInt <$> [2; 5])) (VInt 5)
    = Ok true
  ∧ snd <$> @lint_lines_per_cell str_sorted (VList (SInt <$> [2; 5])) (VInt 8)
    = Ok true.
Proof.
  assert (H5 : snd <$> @lint_lines_per_cell str_sorted
                 (VList (SInt <$> [2; 5])) (VInt 5) = Ok true)
    by (vm_compute; reflexivity).
  split; [lia|]. split; [lia|]. split; [exact H5|].
  exact (proj1 (@higher_threshold_keeps_pass str_sorted [2; 5] 0 5 8
                  ltac:(lia) ltac:(lia)) H5).
Defined.

Lemma kernelspec_flag `{Str} (ks req : gmap string scalar) :
  snd <$> lint_kernelspec (VDict ks) (VDict req)
  = Ok (issuperset (map_to_list ks) (map_to_list req)).
Proof.
  unfold lint_kernelspec.
  destruct (decide (VDict req = VBool false)) as [Heq|_]; [discriminate Heq|].
  reflexivity.
Qed.

(** X5.  Edges of the kernelspec check on mappings: empty requirements
    accept every kernelspec; a kernelspec meets itself; an empty kernelspec
    passes only empty requirements; keys added to a passing kernelspec keep
    it passing.  A kernelspec that is not a mapping raises
    [AttributeError] unless the requirement is [False]. *)
Theorem kernelspec_requirement_edges `{Str} (ks ks' req : gmap string scalar) :
  snd <$> lint_kernelspec (VDict ks) (VDict ∅) = Ok true
  ∧ snd <$> lint_kernelspec (VDict ks) (VDict ks) = Ok true
  ∧ (snd <$> lint_kernelspec (VDict ∅) (VDict req) = Ok true ↔ req = ∅)
  ∧ (ks ⊆ ks' →
     snd <$> lint_kernelspec (VDict ks) (VDict req) = Ok true →
     snd <$> lint_kernelspec (VDict ks') (VDict req) = Ok true)
  ∧ (∀ v r, (∀ d, v ≠ VDict d) → r ≠ VBool false →
       lint_kernelspec v r = Raise AttributeError).
Proof.
  rewrite !kernelspec_flag.
  split; [|split; [|split; [split|split]]].
  - f_equal; try (apply issuperset_spec; intros k v Hk;
                   by apply lookup_empty_Some in Hk).
  - f_equal. by apply issuperset_spec.
  - intros [= Hsup]. apply map_empty. intros k.
    destruct (req !! k) as [v|] eqn:Hk; [|done].
    apply (proj1 (issuperset_spec _ _) Hsup) in Hk.
    by apply lookup_empty_Some in Hk.
  - intros ->. f_equal; try (apply issuperset_spec; intros k v Hk;
                             by apply lookup_empty_Some in Hk).
  - intros Hsub [= Hsup]. f_equal. apply issuperset_spec. intros k v Hk.
    apply (proj1 (issuperset_spec _ _) Hsup) in Hk.
    by eapply lookup_weaken.
  - intros v r Hv Hr. unfold lint_kernelspec.
    rewrite decide_False by done.
    destruct v; try reflexivity. by destruct (Hv d).
Qed.

Lemma difference_empty_subseteq (m l : gset scalar) : m ∖ l = ∅ ↔ m ⊆ l.
Proof.
  split; [apply empty_difference_subseteq_L|apply subseteq_empty_difference_L].
Qed.

Lemma intersection_empty_disjoint (m l : gset scalar) : m ∩ l = ∅ ↔ m ## l.
Proof. symmetry. apply disjoint_intersection_L. Qed.

Lemma subseteq_and_disjoint (m l : gset scalar) : m ⊆ l ∧ m ## l ↔ m = ∅.
Proof.
  split.
  - intros [Hsub Hdis]. apply set_eq. intros x. split.
    + intros Hx. destruct (Hdis x Hx (Hsub x Hx)).
    + intros Hx. by apply not_elem_of_empty in Hx.
  - intros ->. split; [apply empty_subseteq|apply disjoint_empty_l].
Qed.

Lemma subseteq_empty (m : gset scalar) : m ⊆ ∅ ↔ m = ∅.
Proof.
  split; [|by intros ->]. intros Hsub. apply set_eq. intros x. split.
  - apply Hsub.
  - intros Hx. by apply not_elem_of_empty in Hx.
Qed.

Lemma whitelist_flag `{Str} (magics L : gset scalar) :
  snd <$> lint_magics (VSet magics) (VSet L) VNone = Ok true ↔ magics ⊆ L.
Proof.
  rewrite (lint_magics_cases magics (Some L) None).
  cbn [fmap res_fmap snd]. rewrite <- difference_empty_subseteq.
  split; [intros [= Hb]; by apply bool_decide_eq_true in Hb|].
  intros Hb. f_equal. by apply bool_decide_eq_true.
Qed.

Lemma blacklist_flag `{Str} (magics L : gset scalar) :
  snd <$> lint_magics (VSet magics) VNone (VSet L) = Ok true ↔ magics ## L.
Proof.
  rewrite (lint_magics_cases magics None (Some L)).
  cbn [fmap res_fmap snd]. rewrite <- intersection_empty_disjoint.
  split; [intros [= Hb]; by apply bool_decide_eq_true in Hb|].
  intros Hb. f_equal. by apply bool_decide_eq_true.
Qed.

(** X6.  A whitelist passes exactly when every magic is in it, a blacklist
    exactly when no magic is in it.  So with no magics both modes pass, an
    empty blacklist always passes, an empty whitelist passes only without
    magics, and one and the same list passes both as whitelist and as
    blacklist only when the notebook uses no magic at all. *)
Theorem whitelist_subset_blacklist_disjoint `{Str} (magics L : gset scalar) :
  (snd <$> lint_magics (VSet magics) (VSet L) VNone = Ok true ↔ magics ⊆ L)
  ∧ (snd <$> lint_magics (VSet magics) VNone (VSet L) = Ok true ↔ magics ## L)
  ∧ snd <$> lint_magics (VSet ∅) (VSet L) VNone = Ok true
  ∧ snd <$> lint_magics (VSet ∅) VNone (VSet L) = Ok true
  ∧ snd <$> lint_magics (VSet magics) VNone (VSet ∅) = Ok true
  ∧ (snd <$> lint_magics (VSet magics) (VSet ∅) VNone = Ok true ↔ magics = ∅)
  ∧ (snd <$> lint_magics (VSet magics) (VSet L) VNone = Ok true
     ∧ snd <$> lint_magics (VSet magics) VNone (VSet L) = Ok true
     ↔ magics = ∅).
Proof.
  split; [apply whitelist_flag|]. split; [apply blacklist_flag|].
  split; [apply whitelist_flag, empty_subseteq|].
  split; [apply blacklist_flag, disjoint_empty_l|].
  split; [apply blacklist_flag, disjoint_empty_r|].
  split.
  - rewrite whitelist_flag. apply subseteq_empty.
  - rewrite whitelist_flag, blacklist_flag. apply subseteq_and_disjoint.
Qed.

Lemma py_set_VList (l : list scalar) : py_set (VList l) = Ok (list_to_set l).
Proof. reflexivity. Qed.

Lemma list_difference_empty (m l : list scalar) :
  (list_to_set m ∖ list_to_set l : gset scalar) = ∅ ↔ ∀ x, x ∈ m → x ∈ l.
Proof.
  rewrite difference_empty_subseteq. split.
  - intros Hsub x Hx. apply (elem_of_list_to_set (C := gset scalar)).
    apply Hsub. by apply elem_of_list_to_set.
  - intros Hall x Hx. apply elem_of_list_to_set in Hx.
    apply elem_of_list_to_set. by apply Hall.
Qed.

Lemma list_intersection_empty (m l : list scalar) :
  (list_to_set m ∩ list_to_set l : gset scalar) = ∅ ↔ ∀ x, x ∈ m → x ∉ l.
Proof.
  rewrite intersection_empty_disjoint. split.
  - intros Hdis x Hx Hl. apply (Hdis x); by apply elem_of_list_to_set.
  - intros Hall x Hx Hl. apply elem_of_list_to_set in Hx, Hl.
    by apply (Hall x).
Qed.

Lemma whitelist_flag_of_lists `{Str} (m l : list scalar) :
  snd <$> lint_magics (VList m) (VList l) VNone
  = Ok (bool_decide ((list_to_set m ∖ list_to_set l : gset scalar) = ∅)).
Proof.
  unfold lint_magics.
  rewrite !decide_False, !decide_True by (intuition congruence).
  by rewrite !py_set_VList.
Qed.

Lemma blacklist_flag_of_lists `{Str} (m l : list scalar) :
  snd <$> lint_magics (VList m) VNone (VList l)
  = Ok (bool_decide ((list_to_set m ∩ list_to_set l : gset scalar) = ∅)).
Proof.
  unfold lint_magics.
  rewrite !decide_False by (intuition congruence).
  by rewrite !py_set_VList.
Qed.

(** X7.  The magics and the lists may be given as lists instead of sets.
    A whitelist then passes exactly when every listed magic occurs in the
    list, a blacklist exactly when none does; the flag is the one for the
    corresponding sets, and neither the order nor the repetition of the
    elements changes it.  (Nothing is said about the text, in which
    Python lists the failing set in an order of its own.) *)
Theorem magics_lists_count_as_sets `{Str} (magics L : list scalar) :
  (snd <$> lint_magics (VList magics) (VList L) VNone = Ok true
   ↔ ∀ x, x ∈ magics → x ∈ L)
  ∧ (snd <$> lint_magics (VList magics) VNone (VList L) = Ok true
     ↔ ∀ x, x ∈ magics → x ∉ L)
  ∧ snd <$> lint_magics (VList magics) (VList L) VNone
    = snd <$> lint_magics (VSet (list_to_set magics)) (VSet (list_to_set L))
                VNone
  ∧ snd <$> lint_magics (VList magics) VNone (VList L)
    = snd <$> lint_magics (VSet (list_to_set magics)) VNone
                (VSet (list_to_set L))
  ∧ ∀ magics' L',
      (∀ x, x ∈ magics' ↔ x ∈ magics) → (∀ x, x ∈ L' ↔ x ∈ L) →
      snd <$> lint_magics (VList magics') (VList L') VNone
        = snd <$> lint_magics (VList magics) (VList L) VNone
      ∧ snd <$> lint_magics (VList magics') VNone (VList L')
        = snd <$> lint_magics (VList magics) VNone (VList L).
Proof.
  split; [|split; [|split; [|split]]].
  - rewrite whitelist_flag_of_lists, <- list_difference_empty. split.
    + intros [= Hb]. by apply bool_decide_eq_true in Hb.
    + intros Hb. f_equal. by apply bool_decide_eq_true.
  - rewrite blacklist_flag_of_lists, <- list_intersection_empty. split.
    + intros [= Hb]. by apply bool_decide_eq_true in Hb.
    + intros Hb. f_equal. by apply bool_decide_eq_true.
  - rewrite whitelist_flag_of_lists.
    pose proof (lint_magics_cases (list_to_set magics)
                  (Some (list_to_set L)) None) as E.
    cbn [opt_set] in E. by rewrite E.
  - rewrite blacklist_flag_of_lists.
    pose proof (lint_magics_cases (list_to_set magics) None
                  (Some (list_to_set L))) as E.
    cbn [opt_set] in E. by rewrite E.
  - intros magics' L' Hm HL.
    rewrite !whitelist_flag_of_lists, !blacklist_flag_of_lists.
    split; f_equal; apply bool_decide_ext.
    + rewrite !list_difference_empty. split; intros Hall x Hx.
      * apply HL, Hall. by apply Hm.
      * apply HL, Hall. by apply Hm.
    + rewrite !list_intersection_empty. split; intros Hall x Hx Hl.
      * apply (Hall x); [by apply Hm|by apply HL].
      * apply (Hall x); [by apply Hm|by apply HL].
Qed.

Lemma string_in_own_chars (s : string) :
  SStr s ∈ (list_to_set (chars s) : gset scalar) ↔ String.length s = 1%nat.
Proof.
  rewrite elem_of_list_to_set. unfold chars. rewrite list_elem_of_fmap. split.
  - intros (c & [= ->] & _). reflexivity.
  - destruct s as [|c [|d s]]; try discriminate. intros _.
    exists c. split; [reflexivity|]. cbn. apply list_elem_of_here.
Qed.

(** X8.  A list given as one string is read character by character: with
    the name of a magic as whitelist, that magic itself fails unless the
    name is a single character, and with the name as blacklist the magic
    passes unless the name is a single character. *)
Theorem string_list_is_split_into_characters `{Str} (name : string) :
  snd <$> lint_magics (VSet {[ SStr name ]}) (VStr name) VNone
    = Ok (bool_decide (String.length name = 1%nat))
  ∧ snd <$> lint_magics (VSet {[ SStr name ]}) VNone (VStr name)
    = Ok (negb (bool_decide (String.length name = 1%nat))).
Proof.
  unfold lint_magics.
  rewrite !decide_False, !decide_True by (intuition congruence).
  rewrite !decide_False by (intuition congruence).
  rewrite py_set_VSet. unfold py_set. cbn [py_iter mbind res_bind fmap res_fmap snd].
  pose proof (string_in_own_chars name) as Hin.
  split; f_equal.
  - apply bool_decide_ext. rewrite <- Hin. split.
    + intros He. destruct (decide (SStr name ∈ (list_to_set (chars name) : gset scalar)))
        as [|Hn]; [done|].
      assert (Hx : SStr name ∈ ({[SStr name]} ∖ list_to_set (chars name) : gset scalar))
        by (apply elem_of_difference; split; [by apply elem_of_singleton|done]).
      rewrite He in Hx. by apply not_elem_of_empty in Hx.
    + intros Hx. apply set_eq. intros x. rewrite elem_of_difference, elem_of_singleton.
      split; [intros [-> Hn]; by destruct Hn|].
      intros Hy. by apply not_elem_of_empty in Hy.
  - destruct (bool_decide (String.length name = 1%nat)) eqn:Hb; cbn.
    + apply bool_decide_eq_true in Hb. apply Hin in Hb.
      apply bool_decide_eq_false. intros He.
      assert (Hx : SStr name ∈ ({[SStr name]} ∩ list_to_set (chars name) : gset scalar))
        by (apply elem_of_intersection; split; [by apply elem_of_singleton|done]).
      rewrite He in Hx. by apply not_elem_of_empty in Hx.
    + apply bool_decide_eq_false in Hb. apply bool_decide_eq_true.
      apply set_eq. intros x. rewrite elem_of_intersection, elem_of_singleton.
      split; [intros [-> Hx]; destruct Hb; by apply Hin|].
      intros Hy. by apply not_elem_of_empty in Hy.
Qed.

(** * Further properties of the orchestrator *)

Lemma no_rule_key_no_message `{Str} (meta : gmap string val) :
  (∀ k, k ∈ rule_keys → meta !! k = None) → run_rules meta = Ok ([], true).
Proof.
  intros Hnone. unfold run_rules.
  rewrite !(proj2 (has_key_false _ _)); [reflexivity|..];
    apply Hnone; unfold rule_keys; rewrite !elem_of_cons; tauto.
Qed.

Lemma merge_rules_callers_key (k : string) (em : gmap string val)
    (rules : gmap string val) (o : option val) :
  is_Some (rules !! k) →
  merge_rules (partial_alter (λ _, o) k em) (Some rules)
  = merge_rules em (Some rules).
Proof.
  intros [v Hv]. unfold merge_rules; cbn. apply map_eq. intros j.
  rewrite !lookup_union. destruct (decide (j = k)) as [->|Hne].
  - rewrite Hv. by destruct o, (em !! k), (partial_alter _ k em !! k).
  - by rewrite lookup_partial_alter_ne.
Qed.

Section RunExtras.
Context `{Str} {source notebook regex : Type}.
Variable nbformat_read : source → res notebook.
Variable extract_extrametadata : notebook → option regex → gmap string val.
Variable from_notebook_node : notebook → pystr.
Variable win32 : bool.
Variable subprocess_run :
  bool → list string → gmap string pystr → res CompletedProcess.

(** X9.  The noqa filter deletes whatever key the markers name, not only
    rule keys.  When a marker names the measured value of a rule that is
    switched on (here [cell_lines] for [lines_per_cell]), the rule finds
    its input gone and [run] raises [KeyError], without any effect. *)
Theorem noqa_on_measured_value_raises notebook_ executable rules noqa_regex w
    nb noqa s :
  nbformat_read notebook_ = Ok nb →
  merge_rules (extract_extrametadata nb noqa_regex) rules !! "noqa" = Some noqa →
  py_set noqa = Ok s →
  is_Some (merge_rules (extract_extrametadata nb noqa_regex) rules
           !! "lines_per_cell") →
  SStr "lines_per_cell" ∉ s →
  SStr "cell_lines" ∈ s →
  run nbformat_read extract_extrametadata from_notebook_node win32
    subprocess_run notebook_ executable rules noqa_regex w
  = (Raise (KeyError "cell_lines"), w).
Proof.
  intros Hnb Hnoqa Hs Hrule Hkeep Hdrop.
  destruct (drop_noqa_lookup _ noqa s Hnoqa Hs) as (meta & Hmeta & Hlook).
  rewrite run_eq. unfold rule_part. rewrite Hnb. cbn [mbind res_bind].
  rewrite Hmeta. cbn [mbind res_bind].
  assert (Hr : run_rules meta = Raise (KeyError "cell_lines")).
  { unfold run_rules.
    rewrite (proj2 (has_key_true meta "lines_per_cell"))
      by (by rewrite Hlook, decide_False).
    assert (Hc : getitem meta "cell_lines" = Raise (KeyError "cell_lines"))
      by (unfold getitem; by rewrite (Hlook "cell_lines"), decide_True).
    by rewrite Hc. }
  by rewrite Hr.
Qed.

(** X10.  When every rule key of the merged configuration is named by
    noqa (or there is none at all), [run] without a command returns no
    message and [True], and has no effect. *)
Theorem no_active_rule_passes notebook_ rules noqa_regex w nb noqa s :
  nbformat_read notebook_ = Ok nb →
  merge_rules (extract_extrametadata nb noqa_regex) rules !! "noqa" = Some noqa →
  py_set noqa = Ok s →
  (∀ k, k ∈ rule_keys →
     merge_rules (extract_extrametadata nb noqa_regex) rules !! k = None
     ∨ SStr k ∈ s) →
  run nbformat_read extract_extrametadata from_notebook_node win32
    subprocess_run notebook_ None rules noqa_regex w
  = (Ok ([], true), w).
Proof.
  intros Hnb Hnoqa Hs Hoff.
  destruct (drop_noqa_lookup _ noqa s Hnoqa Hs) as (meta & Hmeta & Hlook).
  rewrite run_eq. unfold rule_part. rewrite Hnb. cbn [mbind res_bind].
  rewrite Hmeta. cbn [mbind res_bind].
  rewrite no_rule_key_no_message; [reflexivity|].
  intros k Hk. rewrite Hlook. destruct (decide _) as [|Hn]; [done|].
  by destruct (Hoff k Hk).
Qed.

(** X11.  Without a command, with an empty command list, or when anything
    up to the last rule check raises, [run] has no effect at all: no file
    is written, nothing is spawned, no list changes; its outcome is the
    outcome of the rule checks. *)
Theorem run_without_linter_has_no_effect notebook_ rules noqa_regex w :
  run nbformat_read extract_extrametadata from_notebook_node win32
    subprocess_run notebook_ None rules noqa_regex w
  = (snd <$> rule_part nbformat_read extract_extrametadata notebook_ rules
               noqa_regex, w)
  ∧ (∀ exe, lists w !! exe = Some [] →
       run nbformat_read extract_extrametadata from_notebook_node win32
         subprocess_run notebook_ (Some exe) rules noqa_regex w
       = (snd <$> rule_part nbformat_read extract_extrametadata notebook_ rules
                    noqa_regex, w))
  ∧ (∀ executable e,
       rule_part nbformat_read extract_extrametadata notebook_ rules
         noqa_regex = Raise e →
       run nbformat_read extract_extrametadata from_notebook_node win32
         subprocess_run notebook_ executable rules noqa_regex w
       = (Raise e, w)).
Proof.
  split; [|split].
  - rewrite run_eq. by destruct (rule_part _ _ _ _ _) as [[nb [ret p]]|e].
  - intros exe Hexe. rewrite run_eq.
    destruct (rule_part _ _ _ _ _) as [[nb [ret p]]|e]; [|done].
    cbn. by rewrite Hexe.
  - intros executable e He. by rewrite run_eq, He.
Qed.

(** X12.  Once [run] reaches the linter with a fresh temporary name, the
    files are afterwards exactly what they were before, whether the
    command ran or could not be started: the temporary file never
    outlives the call.  Exactly one command was spawned, the list objects
    other than [executable] are untouched, and an error of the subprocess
    call is the error [run] raises. *)
Theorem temporary_file_never_outlives_run notebook_ exe rules noqa_regex w
    nb v a l :
  rule_part nbformat_read extract_extrametadata notebook_ rules noqa_regex
    = Ok (nb, v) →
  lists w !! exe = Some (a :: l) →
  files w !! tmp_name (tmp_count w) = None →
  let out := run nbformat_read extract_extrametadata from_notebook_node win32
               subprocess_run notebook_ (Some exe) rules noqa_regex w in
  files out.2 = files w
  ∧ spawned out.2 = spawned w ++ [a :: l ++ [tmp_name (tmp_count w)]]
  ∧ tmp_count out.2 = S (tmp_count w)
  ∧ (∀ other, other ≠ exe → lists out.2 !! other = lists w !! other)
  ∧ (∀ e, subprocess_run win32 (a :: l ++ [tmp_name (tmp_count w)])
            (<[tmp_name (tmp_count w) := from_notebook_node nb]> (files w))
          = Raise e →
          out.1 = Raise e).
Proof.
  intros Hrules Hexe Hfresh out. subst out. rewrite run_eq, Hrules.
  destruct v as [ret passed]. cbn. rewrite Hexe. cbn.
  split; [by apply delete_id|]. split; [reflexivity|]. split; [reflexivity|].
  split; [intros other Hne; by rewrite lookup_insert_ne|].
  intros e He. by rewrite He.
Qed.

(** X13.  Caller keys win: for a key the caller's rules supply, whatever
    the extractor reports under that key has no influence on [run]. *)
Theorem callers_value_wins (k : string) (o : option val) notebook_ executable
    (rules : gmap string val) noqa_regex w :
  is_Some (rules !! k) →
  run nbformat_read
    (λ nb rx, partial_alter (λ _, o) k (extract_extrametadata nb rx))
    from_notebook_node win32 subprocess_run notebook_ executable (Some rules)
    noqa_regex w
  = run nbformat_read extract_extrametadata from_notebook_node win32
      subprocess_run notebook_ executable (Some rules) noqa_regex w.
Proof.
  intros Hk. rewrite !run_eq. unfold rule_part.
  destruct (nbformat_read notebook_) as [nb|e]; [|reflexivity].
  cbn [mbind res_bind]. by rewrite merge_rules_callers_key.
Qed.

End RunExtras.

(** ** The order of the messages *)

Lemma StronglySorted_lookup_lt {A} (R : relation A) (l : list A) i j a b :
  StronglySorted R l → (i < j)%nat → l !! i = Some a → l !! j = Some b → R a b.
Proof.
  intros Hl. revert i j. induction Hl as [|x l Hl IH Hx]; intros i j Hij Hi Hj.
  - by rewrite lookup_nil in Hi.
  - destruct j as [|j]; [lia|]. cbn in Hj. destruct i as [|i].
    + injection Hi as <-. rewrite Forall_forall in Hx. apply Hx.
      by eapply list_elem_of_lookup_2.
    + cbn in Hi. apply (IH i j); [lia|done..].
Qed.

Lemma short_list_in_order (l : list LintMessage) :
  (length l ≤ 1)%nat → StronglySorted follows l.
Proof.
  destruct l as [|m [|m' l]]; cbn; intros Hl; [constructor| |lia].
  constructor; constructor.
Qed.

Lemma upto_mono (n n' : nat) (v : verdict) :
  (n ≤ n')%nat → upto n v → upto n' v.
Proof.
  intros Hn [Hs Hr]. split; [done|].
  eapply Forall_impl; [exact Hr|]. cbn. intros m Hm. lia.
Qed.

Section OrderFacts.
Context `{Str}.

Lemma enumerate_from_in_order (mx : val) (l : list scalar) (i : nat) ms :
  enumerate_from mx i l = Ok ms →
  StronglySorted follows ms
  ∧ Forall (λ m, lm_type m = LINES_PER_CELL ∧ Z.of_nat i < lm_cell m) ms.
Proof.
  revert i ms. induction l as [|x l IH]; intros i ms; cbn.
  - intros [= <-]. split; constructor.
  - unfold lines_message. destruct (py_le _ _) as [ok|e]; cbn; [|discriminate].
    destruct (enumerate_from mx (S i) l) as [ms'|e] eqn:Hl; cbn; [|discriminate].
    intros [= <-]. destruct (IH _ _ Hl) as [Hs Hc]. split.
    + constructor; [done|]. eapply Forall_impl; [exact Hc|]. cbn.
      intros m [Hty Hcell]. right. cbn. split; [done|]. split; [done|]. lia.
    + constructor; [cbn; split; [done|lia]|].
      eapply Forall_impl; [exact Hc|]. cbn. intros m [Hty Hcell].
      split; [done|lia].
Qed.

Lemma lint_lines_per_cell_in_order (cl mx : val) v :
  lint_lines_per_cell cl mx = Ok v → StronglySorted follows v.1.
Proof.
  unfold lint_lines_per_cell.
  destruct (py_lt _ _) as [[|]|e]; cbn; try discriminate.
  - intros [= <-]. constructor.
  - destruct (py_iter cl) as [l|e]; cbn; [|discriminate].
    destruct (enumerate_from mx 0 l) as [ms|e] eqn:Hl; cbn; [|discriminate].
    intros [= <-]. by apply enumerate_from_in_order in Hl as [Hs _].
Qed.

Lemma lint_cells_per_notebook_in_order (c mx : val) v :
  lint_cells_per_notebook c mx = Ok v → StronglySorted follows v.1.
Proof.
  unfold lint_cells_per_notebook.
  destruct (py_lt _ _) as [[|]|e]; cbn; try discriminate.
  - intros [= <-]; apply short_list_in_order; cbn; lia.
  - destruct (py_le _ _) as [p|e]; cbn; [|discriminate]. intros [= <-]; apply short_list_in_order; cbn; lia.
Qed.

Lemma lint_function_definitions_in_order (c mx : val) v :
  lint_function_definitions c mx = Ok v → StronglySorted follows v.1.
Proof.
  unfold lint_function_definitions.
  destruct (py_lt _ _) as [[|]|e]; cbn; try discriminate.
  - intros [= <-]; apply short_list_in_order; cbn; lia.
  - destruct (py_le _ _) as [p|e]; cbn; [|discriminate]. intros [= <-]; apply short_list_in_order; cbn; lia.
Qed.

Lemma lint_class_definitions_in_order (c mx : val) v :
  lint_class_definitions c mx = Ok v → StronglySorted follows v.1.
Proof.
  unfold lint_class_definitions.
  destruct (py_lt _ _) as [[|]|e]; cbn; try discriminate.
  - intros [= <-]; apply short_list_in_order; cbn; lia.
  - destruct (py_le _ _) as [p|e]; cbn; [|discriminate]. intros [= <-]; apply short_list_in_order; cbn; lia.
Qed.

Lemma lint_kernelspec_in_order (ks req : val) v :
  lint_kernelspec ks req = Ok v → StronglySorted follows v.1.
Proof.
  unfold lint_kernelspec. destruct (decide _) as [_|_].
  - intros [= <-]; apply short_list_in_order; cbn; lia.
  - destruct (items ks) as [a|e]; cbn; [|discriminate].
    destruct (items req) as [b|e]; cbn; [|discriminate]. intros [= <-]; apply short_list_in_order; cbn; lia.
Qed.

Lemma lint_magics_in_order (magics wl bl : val) v :
  lint_magics magics wl bl = Ok v → StronglySorted follows v.1.
Proof.
  unfold lint_magics.
  destruct (decide _) as [_|_]; [intros [= <-]; apply short_list_in_order; cbn; lia|].
  destruct (decide _) as [_|_]; [discriminate|].
  destruct (decide _) as [_|_];
    (destruct (py_set magics) as [a|e]; cbn; [|discriminate]);
    (destruct (py_set _) as [b|e]; cbn; [|discriminate]);
    intros [= <-]; apply short_list_in_order; cbn; lia.
Qed.

Lemma extend_upto (n : nat) (ty : LintType) acc r acc' :
  upto n acc → (n ≤ rank ty)%nat →
  (∀ v, r = Ok v → of_kind ty v) →
  (∀ v, r = Ok v → StronglySorted follows v.1) →
  extend acc r = Ok acc' → upto (S (rank ty)) acc'.
Proof.
  intros [Hs Hr] Hn Hkind Hord. unfold extend.
  destruct r as [[ret p]|e]; cbn; [|discriminate].
  destruct (Hkind _ eq_refl) as [_ Hk]. specialize (Hord _ eq_refl).
  cbn in *. intros [= <-]. split; cbn.
  - apply StronglySorted_app_2; [|done..].
    intros a b Ha Hb. left.
    rewrite Forall_forall in Hr, Hk. rewrite (Hk b Hb).
    specialize (Hr a Ha). lia.
  - apply Forall_app. split.
    + eapply Forall_impl; [exact Hr|]. cbn. intros m Hm. lia.
    + eapply Forall_impl; [exact Hk|]. cbn. intros m ->. lia.
Qed.

(** One block of [run_rules] for the order: the place [n] moves on by one
    whether the block is skipped or adds its messages. *)
Ltac order_block n ty meta K A acc Hacc kind ord :=
  destruct (has_key meta K) eqn:?HK; cbn [mbind res_bind];
  [ destruct (getitem meta A) as [?a|?]; cbn [mbind res_bind]; [|discriminate];
    destruct (getitem meta K) as [?b|?]; cbn [mbind res_bind]; [|discriminate];
    let acc1 := fresh "acc" in
    let Hext := fresh "Hext" in
    let Hacc1 := fresh "Hacc" in
    destruct (extend acc _) as [acc1|?] eqn:Hext; cbn [mbind res_bind];
      [|discriminate];
    pose proof (extend_upto n ty _ _ _ Hacc ltac:(cbn; lia) (kind _ _)
                  (ord _ _) Hext) as Hacc1;
    cbn [rank] in Hacc1;
    clear Hext Hacc; clear acc; revert acc1 Hacc1
  | apply (upto_mono n (S n)) in Hacc; [|lia]; revert acc Hacc ].

Lemma run_rules_in_order meta v : run_rules meta = Ok v → upto 6 v.
Proof.
  unfold run_rules.
  assert (H0 : upto 0 ([], true)) by (split; constructor).
  revert H0. generalize (([], true) : verdict). intros acc Hacc.
  order_block 0%nat LINES_PER_CELL meta "lines_per_cell" "cell_lines" acc Hacc
    lint_lines_per_cell_kind lint_lines_per_cell_in_order;
    intros acc Hacc.
  all: order_block 1%nat CELLS_PER_NOTEBOOK meta "cells_per_notebook"
         "cell_count" acc Hacc
         lint_cells_per_notebook_kind lint_cells_per_notebook_in_order;
         intros acc Hacc.
  all: order_block 2%nat FUNCTION_DEFINITIONS meta "function_definitions"
         "functions" acc Hacc
         lint_function_definitions_kind lint_function_definitions_in_order;
         intros acc Hacc.
  all: order_block 3%nat CLASS_DEFINITIONS meta "class_definitions"
         "classes" acc Hacc
         lint_class_definitions_kind lint_class_definitions_in_order;
         intros acc Hacc.
  all: order_block 4%nat KERNELSPEC meta "kernelspec_requirements"
         "kernelspec" acc Hacc
         lint_kernelspec_kind lint_kernelspec_in_order;
         intros acc Hacc.
  all: destruct (has_key meta "magics_whitelist"
                 || has_key meta "magics_blacklist");
         [|intros [= <-]; by apply (upto_mono 5 6); [lia|]].
  all: destruct (getitem meta "magics") as [?|?]; cbn [mbind res_bind];
         [|discriminate].
  all: intros Hext.
  all: apply (extend_upto 5 MAGICS _ _ _ Hacc ltac:(cbn; lia)
                (lint_magics_kind _ _ _) (lint_magics_in_order _ _ _) Hext).
Qed.

End OrderFacts.

Lemma follows_rank (a b : LintMessage) :
  follows a b → (rank (lm_type a) ≤ rank (lm_type b))%nat.
Proof. intros [Hlt|(-> & -> & _)]; [lia|done]. Qed.

Lemma follows_other_kind (a b : LintMessage) :
  follows a b → lm_type a = lm_type b → lm_type a = LINES_PER_CELL.
Proof. intros [Hlt|(Ha & _)] Heq; [rewrite Heq in Hlt; lia|done]. Qed.

Lemma html_paragraphs_from (to_html : LintMessage → pystr) (acc : pystr)
    (l : list LintMessage) :
  foldl (λ ret lint, ret ++ lit "<p>" ++ to_html lint ++ lit "</p>") acc l
  = acc ++ mjoin ((λ m, lit "<p>" ++ to_html m ++ lit "</p>") <$> l).
Proof.
  revert acc. induction l as [|m l IH]; intros acc; cbn.
  - by rewrite app_nil_r.
  - rewrite IH. by rewrite <- !app_assoc.
Qed.

Lemma embedded_refl (a : pystr) : embedded a a.
Proof. exists [], []. by rewrite app_nil_r. Qed.

Lemma embedded_app_l (a x y : pystr) : embedded a x → embedded a (x ++ y).
Proof. intros (p & q & ->). exists p, (q ++ y). by rewrite <- !app_assoc. Qed.

Lemma embedded_app_r (a x y : pystr) : embedded a y → embedded a (x ++ y).
Proof. intros (p & q & ->). exists (x ++ p), q. by rewrite <- !app_assoc. Qed.

Section RunOrder.
Context `{Str} {source notebook regex : Type}.
Variable nbformat_read : source → res notebook.
Variable extract_extrametadata : notebook → option regex → gmap string val.
Variable from_notebook_node : notebook → pystr.
Variable win32 : bool.
Variable subprocess_run :
  bool → list string → gmap string pystr → res CompletedProcess.

(** X14.  The messages [run] returns come in a fixed order: the per-cell
    messages first and by rising cell index, then at most one message of
    each notebook-level rule, in the order cells, functions, classes,
    kernelspec, magics, and the LINTER message last. *)
Theorem messages_come_in_fixed_order notebook_ executable rules noqa_regex w
    ret passed w' :
  run nbformat_read extract_extrametadata from_notebook_node win32
    subprocess_run notebook_ executable rules noqa_regex w
    = (Ok (ret, passed), w') →
  StronglySorted follows ret
  ∧ (∀ i j a b, (i < j)%nat → ret !! i = Some a → ret !! j = Some b →
       (rank (lm_type a) ≤ rank (lm_type b))%nat)
  ∧ (∀ i j a b, ret !! i = Some a → ret !! j = Some b →
       lm_type a = lm_type b → lm_type a ≠ LINES_PER_CELL → i = j).
Proof.
  intros Hrun.
  assert (Hs : StronglySorted follows ret).
  { rewrite run_eq in Hrun.
    destruct (rule_part _ _ _ _ _) as [[nb [ret0 p0]]|e] eqn:Hpart;
      [|discriminate].
    apply rule_part_from_rules in Hpart as (_ & meta & _ & Hrules & _).
    apply run_rules_in_order in Hrules as [Hs0 Hr0]. cbn in Hs0, Hr0.
    destruct executable as [exe|]; cbn in Hrun;
      [|by injection Hrun as <- <- <-].
    destruct (lists w !! exe) as [[|a l]|]; cbn in Hrun;
      try (by injection Hrun as <- <- <-).
    destruct (subprocess_run win32 _ _) as [cp|e]; cbn in Hrun; [|discriminate].
    injection Hrun as <- <- <-.
    apply StronglySorted_app_2; [|done|repeat constructor].
    intros x y Hx Hy. apply list_elem_of_singleton in Hy as ->. left. cbn.
    rewrite Forall_forall in Hr0. by apply Hr0. }
  split; [done|]. split.
  - intros i j a b Hij Hi Hj. apply follows_rank.
    by eapply (StronglySorted_lookup_lt follows ret i j).
  - intros i j a b Hi Hj Heq Hne.
    destruct (Nat.lt_trichotomy i j) as [Hlt|[->|Hlt]]; [|done|].
    + destruct Hne. eapply follows_other_kind; [|exact Heq].
      by eapply (StronglySorted_lookup_lt follows ret i j).
    + destruct Hne. rewrite Heq. eapply follows_other_kind; [|by symmetry].
      by eapply (StronglySorted_lookup_lt follows ret j i).
Qed.

(** X15.  [runWithHTMLReturn] is [run] without a noqa pattern: the same
    flag, the same effects, the same exception if [run] raises.  Its markup
    is the flex container around one paragraph per message, in order, so
    without messages it is the bare container, and the rendering of every
    message is in it. *)
Theorem html_wraps_the_messages_of_run (to_html : LintMessage → pystr)
    notebook_ executable rules w :
  runWithHTMLReturn nbformat_read extract_extrametadata from_notebook_node
    win32 subprocess_run to_html notebook_ executable rules w
  = match run nbformat_read extract_extrametadata from_notebook_node win32
            subprocess_run notebook_ executable rules None w with
    | (Ok (ret, passed), w') =>
        (Ok (lit "<div style=" ++ QUOTE
               ++ lit "display: flex; flex-direction: column;" ++ QUOTE
               ++ lit ">"
               ++ mjoin ((λ m, lit "<p>" ++ to_html m ++ lit "</p>") <$> ret)
               ++ lit "</div>",
             passed), w')
    | (Raise e, w') => (Raise e, w')
    end
  ∧ ∀ ret passed w' m,
      run nbformat_read extract_extrametadata from_notebook_node win32
        subprocess_run notebook_ executable rules None w
        = (Ok (ret, passed), w') →
      m ∈ ret →
      ∃ markup,
        runWithHTMLReturn nbformat_read extract_extrametadata
          from_notebook_node win32 subprocess_run to_html notebook_
          executable rules w = (Ok (markup, passed), w')
        ∧ embedded (to_html m) markup.
Proof.
  assert (Heq : runWithHTMLReturn nbformat_read extract_extrametadata
    from_notebook_node win32 subprocess_run to_html notebook_ executable rules w
  = match run nbformat_read extract_extrametadata from_notebook_node win32
            subprocess_run notebook_ executable rules None w with
    | (Ok (ret, passed), w') =>
        (Ok (lit "<div style=" ++ QUOTE
               ++ lit "display: flex; flex-direction: column;" ++ QUOTE
               ++ lit ">"
               ++ mjoin ((λ m, lit "<p>" ++ to_html m ++ lit "</p>") <$> ret)
               ++ lit "</div>",
             passed), w')
    | (Raise e, w') => (Raise e, w')
    end).
  { unfold runWithHTMLReturn, mbind, M_bind.
    destruct (run _ _ _ _ _ _ _ _ _ w) as [[[ret passed]|e] w']; [|reflexivity].
    unfold html_paragraphs. by rewrite html_paragraphs_from. }
  split; [exact Heq|].
  intros ret passed w' m Hrun Hm. rewrite Heq, Hrun. eexists. split; [reflexivity|].
  apply list_elem_of_split in Hm as (l1 & l2 & ->).
  rewrite fmap_app, fmap_cons, join_app.
  do 5 apply embedded_app_r. apply embedded_app_l, embedded_app_r.
  change (mjoin (?x :: ?l)) with (x ++ mjoin l).
  apply embedded_app_l, embedded_app_r, embedded_app_l, embedded_refl.
Qed.

End RunOrder.

Section ScriptFacts.
Context `{Str} {notebook regex : Type}.
Variable nbformat_read : string → res notebook.
Variable extract_extrametadata : notebook → option regex → gmap string val.
Variable from_notebook_node : notebook → pystr.
Variable win32 : bool.
Variable subprocess_run :
  bool → list string → gmap string pystr → res CompletedProcess.
Variable str_message : LintMessage → pystr.

(** X16.  The script, called with one notebook whose rule checks return
    and with a flake8 that could be run: it spawns
    [flake8 --ignore=W391 <temporary file>] from a list of its own, prints
    every message, the LINTER message last, and exits with 0 exactly when
    the rule checks passed.  What flake8 printed has no part in the exit
    status.  No list the caller holds is changed.  With any other number
    of arguments it ends with the usage error and has no effect. *)
Theorem script_exit_status_is_the_rule_flag (prog notebook_ : string) w
    nb ret passed cp :
  rule_part nbformat_read extract_extrametadata notebook_ None None
    = Ok (nb, (ret, passed)) →
  subprocess_run win32
    ["flake8"; "--ignore=W391"; tmp_name (tmp_count w)]
    (<[tmp_name (tmp_count w) := from_notebook_node nb]> (files w)) = Ok cp →
  (∃ w',
     main nbformat_read extract_extrametadata from_notebook_node win32
       subprocess_run str_message [prog; notebook_] w
     = (Exit (printed_lines str_message (ret ++ [linter_message cp]))
          (if passed then 0 else 1), w')
     ∧ spawned w'
       = spawned w ++ [["flake8"; "--ignore=W391"; tmp_name (tmp_count w)]]
     ∧ ∀ x l, lists w !! x = Some l → lists w' !! x = Some l)
  ∧ ∀ argv, length argv ≠ 2%nat →
      main nbformat_read extract_extrametadata from_notebook_node win32
        subprocess_run str_message argv w
      = (Usage (lit "Usage:python -m nbcelltests.lint <ipynb file>"), w).
Proof.
  intros Hrules Hsub. split.
  - unfold main, new_list. rewrite run_eq, Hrules. cbn.
    rewrite lookup_insert_eq. cbn. rewrite Hsub. cbn.
    eexists. split; [reflexivity|]. cbn. split; [reflexivity|].
    intros x l Hx. rewrite !lookup_insert_ne; [done|..];
      intros <-; pose proof (is_fresh (dom (lists w))) as Hf;
      apply Hf, elem_of_dom; by rewrite Hx.
  - intros argv Hlen. unfold main.
    destruct argv as [|a [|b [|c argv]]]; cbn in Hlen; try reflexivity. lia.
Qed.

End ScriptFacts.

(** ** The further properties on concrete notebooks *)

(** X9 on a notebook whose marker names [cell_lines] while the caller asks
    for [lines_per_cell]. *)
Lemma noqa_on_measured_value_raises_witness :
  merge_rules (demo_extract cell_lines_noqa None)
    (Some {[ "lines_per_cell" := VInt 3 ]}) !! "noqa"
    = Some (VSet {[ SStr "cell_lines" ]})
  ∧ run_demo (fixed_linter 0 [] []) cell_lines_noqa None
      (Some {[ "lines_per_cell" := VInt 3 ]}) None caller_world
    = (Raise (KeyError "cell_lines"), caller_world).
Proof.
  assert (H2 : merge_rules (demo_extract cell_lines_noqa None)
                 (Some {[ "lines_per_cell" := VInt 3 ]}) !! "noqa"
               = Some (VSet {[ SStr "cell_lines" ]}))
    by (vm_compute; reflexivity).
  split; [exact H2|].
  apply (@noqa_on_measured_value_raises str_sorted demo_notebook demo_notebook
           unit demo_read demo_extract demo_script false (fixed_linter 0 [] [])
           cell_lines_noqa None (Some {[ "lines_per_cell" := VInt 3 ]}) None
           caller_world cell_lines_noqa (VSet {[ SStr "cell_lines" ]})
           {[ SStr "cell_lines" ]}).
  - reflexivity.
  - exact H2.
  - apply py_set_VSet.
  - exists (VInt 3). vm_compute. reflexivity.
  - apply not_elem_of_singleton. discriminate.
  - by apply elem_of_singleton.
Defined.

(** X10 on the notebook that marks [lines_per_cell], the only rule key in
    sight, as noqa. *)
Lemma no_active_rule_passes_witness :
  merge_rules (demo_extract two_cells_noqa None)
    (Some {[ "lines_per_cell" := VInt 3 ]}) !! "noqa"
    = Some (VSet {[ SStr "lines_per_cell" ]})
  ∧ run_demo (fixed_linter 0 [] []) two_cells_noqa None
      (Some {[ "lines_per_cell" := VInt 3 ]}) None caller_world
    = (Ok ([], true), caller_world).
Proof.
  assert (H2 : merge_rules (demo_extract two_cells_noqa None)
                 (Some {[ "lines_per_cell" := VInt 3 ]}) !! "noqa"
               = Some (VSet {[ SStr "lines_per_cell" ]}))
    by (vm_compute; reflexivity).
  split; [exact H2|].
  apply (@no_active_rule_passes str_sorted demo_notebook demo_notebook
           unit demo_read demo_extract demo_script false (fixed_linter 0 [] [])
           two_cells_noqa (Some {[ "lines_per_cell" := VInt 3 ]}) None
           caller_world two_cells_noqa (VSet {[ SStr "lines_per_cell" ]})
           {[ SStr "lines_per_cell" ]}).
  - reflexivity.
  - exact H2.
  - apply py_set_VSet.
  - intros k Hk. unfold rule_keys in Hk.
    rewrite !elem_of_cons, elem_of_nil in Hk.
    destruct Hk as [->|[->|[->|[->|[->|[->|[->|[]]]]]]]];
      [right; by apply elem_of_singleton|left; vm_compute; reflexivity..].
Defined.

(** X12 on the two-cell notebook and the command of the entry point. *)
Lemma temporary_file_never_outlives_run_witness :
  lists caller_world !! flake8 = Some ["flake8"; "--ignore=W391"]
  ∧ files caller_world !! tmp_name (tmp_count caller_world) = None
  ∧ files (run_demo (fixed_linter 0 [] []) two_cells (Some flake8) None None
             caller_world).2
    = files caller_world.
Proof.
  assert (H1 : rule_part (H := str_sorted) demo_read demo_extract two_cells
                 None None = Ok (two_cells, ([], true)))
    by (vm_compute; reflexivity).
  assert (H2 : lists caller_world !! flake8 = Some ["flake8"; "--ignore=W391"])
    by (vm_compute; reflexivity).
  assert (H3 : files caller_world !! tmp_name (tmp_count caller_world) = None)
    by (vm_compute; reflexivity).
  split; [exact H2|]. split; [exact H3|].
  exact (proj1 (@temporary_file_never_outlives_run str_sorted demo_notebook
                  demo_notebook unit demo_read demo_extract demo_script false
                  (fixed_linter 0 [] []) two_cells flake8 None None
                  caller_world two_cells ([], true) "flake8" ["--ignore=W391"]
                  H1 H2 H3)).
Defined.

(** X13 for the key [lines_per_cell]: a limit of 100 in the notebook's own
    metadata is not seen when the caller passes 3. *)
Lemma callers_value_wins_witness :
  is_Some (({[ "lines_per_cell" := VInt 3 ]} : gmap string val)
           !! "lines_per_cell")
  ∧ @run str_sorted demo_notebook demo_notebook unit demo_read
      (λ nb rx, partial_alter (λ _, Some (VInt 100)) "lines_per_cell"
                  (demo_extract nb rx))
      demo_script false (fixed_linter 0 [] []) two_cells None
      (Some {[ "lines_per_cell" := VInt 3 ]}) None caller_world
    = run_demo (fixed_linter 0 [] []) two_cells None
        (Some {[ "lines_per_cell" := VInt 3 ]}) None caller_world.
Proof.
  assert (H1 : is_Some (({[ "lines_per_cell" := VInt 3 ]} : gmap string val)
                        !! "lines_per_cell"))
    by (exists (VInt 3); vm_compute; reflexivity).
  split; [exact H1|].
  exact (@callers_value_wins str_sorted demo_notebook demo_notebook unit
           demo_read demo_extract demo_script false (fixed_linter 0 [] [])
           "lines_per_cell" (Some (VInt 100)) two_cells None
           {[ "lines_per_cell" := VInt 3 ]} None caller_world H1).
Defined.

(** X14 on the run with two per-cell messages and a LINTER message. *)
Lemma messages_come_in_fixed_order_witness :
  ∃ ret w',
    run_demo (fixed_linter 0 (lit "E1") []) two_cells (Some flake8)
      (Some {[ "lines_per_cell" := VInt 9 ]}) None caller_world
      = (Ok (ret, true), w')
    ∧ StronglySorted follows ret.
Proof.
  destruct complaint_leaves_flag_true as (ret & w' & m & Hrun & _).
  exists ret, w'. split; [exact Hrun|].
  exact (proj1 (@messages_come_in_fixed_order str_sorted demo_notebook
                  demo_notebook unit demo_read demo_extract demo_script false
                  (fixed_linter 0 (lit "E1") []) two_cells (Some flake8)
                  (Some {[ "lines_per_cell" := VInt 9 ]}) None caller_world
                  ret true w' Hrun)).
Defined.

(** X16 on a flake8 that complains and exits with 1: the script exits
    with 0. *)
Lemma script_exit_status_is_the_rule_flag_witness :
  fixed_linter 1 (lit "E1") [] false
    ["flake8"; "--ignore=W391"; tmp_name (tmp_count caller_world)]
    (<[tmp_name (tmp_count caller_world) := demo_script two_cells]>
       (files caller_world))
    = Ok (mkCompletedProcess 1 (lit "E1") [])
  ∧ ∃ w',
      @main str_sorted demo_notebook unit (λ _, Ok two_cells) demo_extract
        demo_script false (fixed_linter 1 (lit "E1") []) lm_message
        ["lint.py"; "nb.ipynb"] caller_world
      = (Exit (printed_lines lm_message
                 ([] ++ [linter_message (mkCompletedProcess 1 (lit "E1") [])]))
           0, w').
Proof.
  assert (H1 : rule_part (H := str_sorted) (λ _ : string, Ok two_cells)
                 demo_extract "nb.ipynb" None None
               = Ok (two_cells, ([], true)))
    by (vm_compute; reflexivity).
  assert (H2 : fixed_linter 1 (lit "E1") [] false
    ["flake8"; "--ignore=W391"; tmp_name (tmp_count caller_world)]
    (<[tmp_name (tmp_count caller_world) := demo_script two_cells]>
       (files caller_world))
    = Ok (mkCompletedProcess 1 (lit "E1") []))
    by reflexivity.
  split; [exact H2|].
  destruct (proj1 (@script_exit_status_is_the_rule_flag str_sorted
                     demo_notebook unit (λ _, Ok two_cells) demo_extract
                     demo_script false (fixed_linter 1 (lit "E1") [])
                     lm_message "lint.py" "nb.ipynb" caller_world two_cells []
                     true (mkCompletedProcess 1 (lit "E1") []) H1 H2))
    as (w' & Hmain & _).
  exists w'. exact Hmain.
Defined.
